(** * editor-js-code: the CodeTool block of src/index.js

    A shallow embedding of the CodeTool class (constructor, drawView, save,
    onPaste, the data accessor pair and tabHandler) together with the part
    of the JavaScript language the class relies on: strings as sequences of
    UTF-16 code units, [substring] / [substr] with their clamping, truthiness
    and [||], ordinary objects with their prototype chain and own-key order. *)

From Stdlib Require Import ZArith NArith List Bool Lia Ascii String.
Import ListNotations.

Local Open Scope Z_scope.

(* ================================================================== *)
(** * JavaScript values *)

Module JS.

(** A string is a sequence of UTF-16 code units. *)
Definition code_unit := N.
Definition JSString := list code_unit.

(** Literals: every character of an 8-bit literal is one code unit. *)
Definition js (s : string) : JSString :=
  map N_of_ascii (list_ascii_of_string s).
Arguments js s%_string.

Definition LF : code_unit := 10%N.
Definition SPACE : code_unit := 32%N.

Definition str_eqb (a b : JSString) : bool :=
  if list_eq_dec N.eq_dec a b then true else false.

(** [s.length] *)
Definition length (s : JSString) : Z := Z.of_nat (List.length s).

Definition clamp (lo hi x : Z) : Z := Z.min (Z.max x lo) hi.

(** [s.substring(start, end)]: both bounds are clamped to [0, s.length]
    and swapped when start > end; a missing end is s.length. *)
Definition substring (s : JSString) (start : Z) (end_ : option Z) : JSString :=
  let len := length s in
  let intStart := start in
  let intEnd := match end_ with None => len | Some e => e end in
  let finalStart := clamp 0 len intStart in
  let finalEnd := clamp 0 len intEnd in
  let from := Z.min finalStart finalEnd in
  let to := Z.max finalStart finalEnd in
  firstn (Z.to_nat (to - from)) (skipn (Z.to_nat from) s).

(** [s.substr(start, length)]: a negative start counts from the end. *)
Definition substr (s : JSString) (start : Z) (length_ : Z) : JSString :=
  let size := length s in
  let intStart :=
    if start <? 0 then Z.max (size + start) 0 else Z.min start size in
  let intLength := clamp 0 size length_ in
  let intEnd := Z.min (intStart + intLength) size in
  firstn (Z.to_nat (intEnd - intStart)) (skipn (Z.to_nat intStart) s).

(** The values that reach the class: [undefined], strings, and objects
    (functions included), of which only the identity matters. *)
Inductive Value :=
| Undefined
| Str (s : JSString)
| Object_ (name : JSString).

Definition typeof_is_string (v : Value) : bool :=
  match v with Str _ => true | _ => false end.

Definition ToBoolean (v : Value) : bool :=
  match v with
  | Undefined => false
  | Str s => match s with [] => false | _ :: _ => true end
  | Object_ _ => true
  end.

(** [a || b] *)
Definition logical_or (a b : Value) : Value := if ToBoolean a then a else b.

(** An ordinary object used as a record of string-keyed properties: its
    own enumerable properties in creation order, its own non-enumerable
    properties (keys pairwise distinct), and its prototype. *)
#[warnings="-register-all"]
Inductive Object := mkObject {
  properties : list (JSString * Value);
  hidden : list (JSString * Value);
  prototype : option Object
}.

Fixpoint own (ps : list (JSString * Value)) (k : JSString) : option Value :=
  match ps with
  | [] => None
  | (k', v) :: r => if str_eqb k' k then Some v else own r k
  end.

(** [o[k]]: the own property, else the one found along the prototype
    chain, else [undefined]. *)
Fixpoint Get (o : Object) (k : JSString) : Value :=
  match o with
  | mkObject ps hs proto =>
      match own (ps ++ hs) k with
      | Some v => v
      | None => match proto with
                | Some p => Get p k
                | None => Undefined
                end
      end
  end.

Definition method (n : string) : JSString * Value := (js n, Object_ (js n)).
Arguments method n%_string.

(** [Object.prototype]: its methods and the [__proto__] accessor (which
    yields the prototype of the receiver), none of them enumerable. *)
Definition ObjectPrototype : Object :=
  mkObject
    []
    [ method "constructor"; method "hasOwnProperty"; method "isPrototypeOf";
      method "propertyIsEnumerable"; method "toLocaleString";
      method "toString"; method "valueOf";
      method "__defineGetter__"; method "__defineSetter__";
      method "__lookupGetter__"; method "__lookupSetter__";
      (js "__proto__", Object_ (js "Object.prototype")) ]
    None.

(** An object literal [{ k1: v1, ..., kn: vn }]. *)
Definition literal (ps : list (JSString * Value)) : Object :=
  mkObject ps [] (Some ObjectPrototype).

(** ** Own-key order

    [Object.keys] lists the array-index keys first, in ascending numeric
    order, and then the other keys in creation order.  An array index is
    the canonical decimal numeral of an integer below 2^32 - 1. *)

Definition is_digit (u : code_unit) : bool :=
  ((48 <=? u) && (u <=? 57))%N.

Definition numeral_value (s : JSString) : N :=
  fold_left (fun acc u => (10 * acc + (u - 48))%N) s 0%N.

Definition is_array_index (s : JSString) : bool :=
  match s with
  | [] => false
  | d :: r =>
      forallb is_digit s
      && (negb (N.eqb d 48) || match r with [] => true | _ => false end)
      && (numeral_value s <? 4294967295)%N
  end.

Fixpoint insert_by_index (k : JSString) (sorted : list JSString)
  : list JSString :=
  match sorted with
  | [] => [k]
  | k' :: r =>
      if (numeral_value k <=? numeral_value k')%N then k :: sorted
      else k' :: insert_by_index k r
  end.

Definition sort_by_index (ks : list JSString) : list JSString :=
  fold_right insert_by_index [] ks.

Definition ordered_keys (ps : list (JSString * Value)) : list JSString :=
  let ks := map fst ps in
  sort_by_index (filter is_array_index ks)
    ++ filter (fun k => negb (is_array_index k)) ks.

(** [Object.keys(o)] *)
Definition keys (o : Object) : list JSString :=
  ordered_keys (properties o).

Definition has_key (ps : list (JSString * Value)) (k : JSString) : bool :=
  match own ps k with Some _ => true | None => false end.

(** The keys visited by [for (const k in o)]: the own enumerable keys, then
    those of the prototype chain that no nearer object defines. *)
Fixpoint for_in (o : Object) : list JSString :=
  match o with
  | mkObject ps hs proto =>
      ordered_keys ps
        ++ match proto with
           | Some p => filter (fun k => negb (has_key (ps ++ hs) k)) (for_in p)
           | None => []
           end
  end.

(** [a[0]] on the array of keys: [undefined] when there is none. *)
Definition index0 (ks : list JSString) : Value :=
  match ks with
  | [] => Undefined
  | k :: _ => Str k
  end.

End JS.

(* ================================================================== *)
(** * ./utils/string *)

Module Utils.
Import JS.

(** Modelled from the spec: the scan behind [getLineStartPosition], whose
    file ./utils/string is not among the sources.  It returns the offset one
    past the last line feed of [prefix], whose first code unit stands at
    offset [pos], and [start] when [prefix] holds none. *)
Fixpoint scan_line_start (prefix : JSString) (pos start : nat) : nat :=
  match prefix with
  | [] => start
  | u :: r => scan_line_start r (S pos) (if N.eqb u LF then S pos else start)
  end.

(** Modelled from the spec: [getLineStartPosition] is imported from
    ./utils/string, a file that is not among the sources.  The spec gives it
    as the offset of the first character of the line containing [position]:
    one past the nearest line separator that precedes [position], or 0 when
    none precedes it. *)
Definition getLineStartPosition (string_ : JSString) (position : Z) : Z :=
  Z.of_nat (scan_line_start (firstn (Z.to_nat position) string_) 0 0).

End Utils.

(* ================================================================== *)
(** * The document objects the class touches *)

Module DOM.
Import JS.

(** Nodes handed over by the host (the block wrapper given to [save], the
    pasted node given to [onPaste]): text nodes, and elements with their tag,
    their live [value] (form controls) and their children. *)
#[warnings="-register-all"]
Inductive Node :=
| Text (data : JSString)
| Element (localName : JSString) (value : JSString) (childNodes : list Node).

(** Induction over a node and, through the list, over its children. *)
Fixpoint Node_forall_ind (P : Node -> Prop)
  (Htext : forall d, P (Text d))
  (Helement : forall name v cs, Forall P cs -> P (Element name v cs))
  (n : Node) : P n :=
  match n with
  | Text d => Htext d
  | Element name v cs =>
      Helement name v cs
        ((fix children (l : list Node) : Forall P l :=
            match l with
            | [] => Forall_nil P
            | c :: r =>
                Forall_cons c (Node_forall_ind P Htext Helement c) (children r)
            end) cs)
  end.

(** [node.textContent]: the text of all descendants, in document order. *)
Fixpoint textContent (n : Node) : JSString :=
  match n with
  | Text d => d
  | Element _ _ cs => flat_map textContent cs
  end.

(** First result of [f] along a list. *)
Definition find_first {A B : Type} (f : A -> option B)
  : list A -> option B :=
  fix go (l : list A) : option B :=
    match l with
    | [] => None
    | a :: r => match f a with
                | Some b => Some b
                | None => go r
                end
    end.

(** First element with the given tag among [n] and its descendants, in
    document order. *)
Fixpoint find_element (tag : JSString) (n : Node) : option Node :=
  match n with
  | Text _ => None
  | Element name _ cs =>
      if str_eqb name tag then Some n
      else find_first (find_element tag) cs
  end.

(** [n.querySelector(tag)]: the first descendant element with that tag,
    [null] when there is none. *)
Definition querySelector (tag : JSString) (n : Node) : option Node :=
  match n with
  | Text _ => None
  | Element _ _ cs => find_first (find_element tag) cs
  end.

(** The live state of a text control, owned by the browser; the class reads
    and writes it only through [event.target]. *)
Record TextControl := {
  value : JSString;
  selectionStart : Z;
  selectionEnd : Z
}.

(** [t.value = v] *)
Definition set_value (v : JSString) (t : TextControl) : TextControl :=
  {| value := v;
     selectionStart := selectionStart t;
     selectionEnd := selectionEnd t |}.

(** The conversion of a number to the [unsigned long] of the selection
    interface: it wraps modulo 2^32. *)
Definition unsigned_long (x : Z) : Z := x mod 4294967296.

(** An offset handed to a text control that holds [len] code units: it is
    converted to [unsigned long], and an offset past the end points at the
    end.  A text is shorter than 2^32 code units, so an offset inside it
    converts to itself. *)
Definition text_offset (len x : Z) : Z :=
  if (0 <=? x) && (x <=? len) then x else Z.min (unsigned_long x) len.

(** [t.setSelectionRange(a, b)]: both offsets are brought into the text, and
    an end at or before the start collapses the selection at the end. *)
Definition setSelectionRange (a b : Z) (t : TextControl) : TextControl :=
  let len := length (value t) in
  let start := text_offset len a in
  let end_ := text_offset len b in
  {| value := value t;
     selectionStart := if end_ <=? start then end_ else start;
     selectionEnd := end_ |}.

Record KeyboardEvent := {
  key_code : JSString;
  shiftKey : bool;
  target : TextControl;
  propagationStopped : bool;
  defaultPrevented : bool
}.

Definition stopPropagation (e : KeyboardEvent) : KeyboardEvent :=
  {| key_code := key_code e; shiftKey := shiftKey e; target := target e;
     propagationStopped := true; defaultPrevented := defaultPrevented e |}.

Definition preventDefault (e : KeyboardEvent) : KeyboardEvent :=
  {| key_code := key_code e; shiftKey := shiftKey e; target := target e;
     propagationStopped := propagationStopped e; defaultPrevented := true |}.

Definition with_target (t : TextControl) (e : KeyboardEvent) : KeyboardEvent :=
  {| key_code := key_code e; shiftKey := shiftKey e; target := t;
     propagationStopped := propagationStopped e;
     defaultPrevented := defaultPrevented e |}.

(** A change event of the selector: [event.target.value]. *)
Record ChangeEvent := { change_target_value : JSString }.

(** A paste event of the editor core: [event.detail.data]. *)
Record PasteEvent := { detail_data : Node }.

(** The nodes the class builds for its view, with the properties it
    assigns on them. *)
Record OptionNode := {
  option_value : JSString;
  option_textContent : Value
}.

Record SelectNode := {
  select_classList : list JSString;
  select_children : list OptionNode;
  select_value : Value;
  select_disabled : bool
}.

(** The text a value shows when it is assigned where the document expects
    a string: none for [undefined], the default description for an object. *)
Definition toDOMString (v : Value) : JSString :=
  match v with
  | Undefined => []
  | Str s => s
  | Object_ _ => js "[object Object]"
  end.

(** The text a textarea reports for a raw value: a carriage return, alone
    or before a line feed, reads as one line feed. *)
Fixpoint normalize_newlines (s : JSString) : JSString :=
  match s with
  | [] => []
  | u :: r =>
      if N.eqb u 13
      then LF :: match r with
                 | [] => []
                 | u' :: r' =>
                     if N.eqb u' LF then normalize_newlines r'
                     else normalize_newlines r
                 end
      else u :: normalize_newlines r
  end.

(** The textarea: the properties the class assigns on it, and what the
    browser keeps for it, the raw value it displays and the flag that
    records whether that value was ever set or edited. *)
Record TextAreaNode := {
  textarea_classList : list JSString;
  textarea_textContent : Value;
  textarea_placeholder : JSString;
  textarea_disabled : bool;
  textarea_rawValue : JSString;
  textarea_dirty : bool
}.

(** [textarea.value]: the displayed text. *)
Definition textarea_value (t : TextAreaNode) : JSString :=
  normalize_newlines (textarea_rawValue t).

(** [textarea.value = v], and an edit by the user that leaves [v]: the raw
    value is replaced and the textarea is dirty from then on. *)
Definition textarea_set_value (v : JSString) (t : TextAreaNode)
  : TextAreaNode :=
  {| textarea_classList := textarea_classList t;
     textarea_textContent := textarea_textContent t;
     textarea_placeholder := textarea_placeholder t;
     textarea_disabled := textarea_disabled t;
     textarea_rawValue := v;
     textarea_dirty := true |}.

(** The wrapper holds its children by reference: they are the selector and
    the textarea kept in [this.nodes]. *)
Inductive ViewRef := SelectorRef | TextareaRef.

Record WrapperNode := {
  wrapper_classList : list JSString;
  wrapper_children : list ViewRef
}.

End DOM.

(* ================================================================== *)
(** * class CodeTool *)

Module CodeTool.
Import JS DOM.

(** ** Static getters *)

Definition isReadOnlySupported : bool := true.
Definition enableLineBreaks : bool := true.
Definition DEFAULT_PLACEHOLDER : JSString := js "Enter a code".
Definition DEFAULT_MODE_KEY : JSString := js "text".
Definition DEFAULT_MODE_LABEL : JSString := js "Plain Text".
Definition pasteConfig_tags : list JSString := [js "pre"].
Definition sanitize_code : bool := true.

(** ** Types of the JSDoc header *)

Record CodeConfig := {
  config_placeholder : Value;
  config_modes : option Object;
  config_defaultMode : Value
}.

Record CodeData := { code : Value; mode : Value }.

(** The services of the editor API the constructor calls. *)
Record API := {
  i18n_t : Value -> JSString;
  styles_block : JSString;
  styles_input : JSString
}.

Record Options := {
  options_data : CodeData;
  options_config : CodeConfig;
  options_api : API;
  options_readOnly : bool
}.

Record CSSNames := {
  baseClass : JSString;
  input : JSString;
  wrapper : JSString;
  textarea : JSString;
  selector : JSString
}.

Record Nodes := {
  nodes_holder : option WrapperNode;
  nodes_selector : option SelectNode;
  nodes_textarea : option TextAreaNode
}.

(** The instance: [this]. *)
Record Instance := {
  api : API;
  readOnly : bool;
  placeholder : JSString;
  modes : Object;
  CSS : CSSNames;
  nodes : Nodes;
  _data : CodeData
}.

Definition with_nodes (n : Nodes) (this : Instance) : Instance :=
  {| api := api this; readOnly := readOnly this;
     placeholder := placeholder this; modes := modes this; CSS := CSS this;
     nodes := n; _data := _data this |}.

Definition with__data (d : CodeData) (this : Instance) : Instance :=
  {| api := api this; readOnly := readOnly this;
     placeholder := placeholder this; modes := modes this; CSS := CSS this;
     nodes := nodes this; _data := d |}.

(** ** get data / set data *)

Definition get_data (this : Instance) : CodeData := _data this.

(** [textarea.textContent = v]: the child text is replaced; the raw value
    follows it only while the textarea is not dirty. *)
Definition set_textContent (v : Value) (t : TextAreaNode) : TextAreaNode :=
  {| textarea_classList := textarea_classList t;
     textarea_textContent := v;
     textarea_placeholder := textarea_placeholder t;
     textarea_disabled := textarea_disabled t;
     textarea_rawValue :=
       if textarea_dirty t then textarea_rawValue t else toDOMString v;
     textarea_dirty := textarea_dirty t |}.

Definition set_data (data : CodeData) (this : Instance) : Instance :=
  let this := with__data data this in
  match nodes_textarea (nodes this) with
  | Some t =>
      with_nodes
        {| nodes_holder := nodes_holder (nodes this);
           nodes_selector := nodes_selector (nodes this);
           nodes_textarea := Some (set_textContent (code data) t) |}
        this
  | None => this
  end.

(** ** constructor *)

Definition WARNING : JSString :=
  js "[@rxpm:editor-js-code] Missing default mode value in plugin configuration".

(** [this.modes = config.modes || { text: CodeTool.DEFAULT_MODE_LABEL }];
    every object is truthy, an absent [modes] is not. *)
Definition effective_modes (config : CodeConfig) : Object :=
  match config_modes config with
  | Some m => m
  | None => literal [(js "text", Str DEFAULT_MODE_LABEL)]
  end.

(** The choice of [selectedMode], with the lines written to the console. *)
Definition select_mode (this_modes : Object) (config : CodeConfig)
  : Value * list JSString :=
  match config_defaultMode config with
  | Str defaultMode =>
      if negb (ToBoolean (Get this_modes defaultMode))
      then (Str DEFAULT_MODE_KEY, [WARNING])
      else (Str defaultMode, [])
  | _ => (index0 (keys this_modes), [])
  end.

(** [drawView()]: builds the selector and the textarea, stores them in
    [this.nodes] and returns the wrapper. *)
Definition drawView (this : Instance) : WrapperNode * Instance :=
  let wrapper_ :=
    {| wrapper_classList := [baseClass (CSS this); wrapper (CSS this)];
       wrapper_children := [] |} in
  let selector_ :=
    {| select_classList := [selector (CSS this)];
       select_children :=
         map (fun modeKey =>
                {| option_value := modeKey;
                   option_textContent := Get (modes this) modeKey |})
             (for_in (modes this));
       select_value := mode (get_data this);
       select_disabled := readOnly this |} in
  let textarea_ :=
    set_textContent (code (get_data this))
      {| textarea_classList := [textarea (CSS this); input (CSS this)];
         textarea_textContent := Str [];
         textarea_placeholder := placeholder this;
         textarea_disabled := readOnly this;
         textarea_rawValue := [];
         textarea_dirty := false |} in
  let wrapper_ :=
    {| wrapper_classList := wrapper_classList wrapper_;
       wrapper_children := [SelectorRef; TextareaRef] |} in
  (wrapper_,
   with_nodes
     {| nodes_holder := nodes_holder (nodes this);
        nodes_selector := Some selector_;
        nodes_textarea := Some textarea_ |}
     this).

(** [new CodeTool({ data, config, api, readOnly })], with the console. *)
Definition constructor (o : Options) : Instance * list JSString :=
  let data := options_data o in
  let config := options_config o in
  let this_api := options_api o in
  let this_placeholder :=
    i18n_t this_api (logical_or (config_placeholder config) (Str DEFAULT_PLACEHOLDER)) in
  let this_modes := effective_modes config in
  let '(selectedMode, console) := select_mode this_modes config in
  let this :=
    {| api := this_api;
       readOnly := options_readOnly o;
       placeholder := this_placeholder;
       modes := this_modes;
       CSS := {| baseClass := styles_block this_api;
                 input := styles_input this_api;
                 wrapper := js "ce-code";
                 textarea := js "ce-code__textarea";
                 selector := js "rxpm-code__selector" |};
       nodes := {| nodes_holder := None;
                   nodes_selector := None;
                   nodes_textarea := None |};
       _data := {| code := Undefined; mode := Undefined |} |} in
  let this :=
    set_data {| code := logical_or (code data) (Str []);
                mode := logical_or (mode data) selectedMode |} this in
  let '(holder, this) := drawView this in
  (with_nodes
     {| nodes_holder := Some holder;
        nodes_selector := nodes_selector (nodes this);
        nodes_textarea := nodes_textarea (nodes this) |}
     this,
   console).

(** ** render, save, onPaste *)

Definition render (this : Instance) : option WrapperNode :=
  nodes_holder (nodes this).

Inductive Result (A : Type) :=
| Ok (a : A)
| TypeError.
Arguments Ok {A} a.
Arguments TypeError {A}.

(** [save(codeWrapper)]: reading [value] off [null] throws. *)
Definition save (this : Instance) (codeWrapper : Node) : Result CodeData :=
  match querySelector (js "textarea") codeWrapper with
  | Some (Element _ v _) =>
      Ok {| code := Str v; mode := mode (get_data this) |}
  | _ => TypeError
  end.

Definition onPaste (this : Instance) (event : PasteEvent) : Instance :=
  let content := detail_data event in
  set_data {| code := Str (textContent content);
              mode := mode (get_data this) |} this.

(** ** Listeners installed by drawView *)

(** [selector.addEventListener('change', ...)]: assigns the [mode] field of
    the stored record in place, the setter is not involved. *)
Definition change_listener (this : Instance) (event : ChangeEvent) : Instance :=
  with__data {| code := code (get_data this);
                mode := Str (change_target_value event) |} this.

Section Imports.

(** [import { getLineStartPosition } from './utils/string'] *)
Variable getLineStartPosition : JSString -> Z -> Z.

Definition indentation : JSString := js "  ".

(** [tabHandler(event)]: only the event and its target are touched. *)
Definition tabHandler (event : KeyboardEvent) : KeyboardEvent :=
  let event := stopPropagation event in
  let event := preventDefault event in
  let textarea := target event in
  let isShiftPressed := shiftKey event in
  let caretPosition := selectionStart textarea in
  let value := value textarea in
  if negb isShiftPressed then
    let newCaretPosition := caretPosition + length indentation in
    let textarea :=
      set_value (substring value 0 (Some caretPosition)
                   ++ indentation ++ substring value caretPosition None)
                textarea in
    with_target (setSelectionRange newCaretPosition newCaretPosition textarea)
                event
  else
    let currentLineStart := getLineStartPosition value caretPosition in
    let firstLineChars :=
      substr value currentLineStart (length indentation) in
    if negb (str_eqb firstLineChars indentation) then event
    else
      let textarea :=
        set_value (substring value 0 (Some currentLineStart)
                     ++ substring value
                          (currentLineStart + length indentation) None)
                  textarea in
      let newCaretPosition := caretPosition - length indentation in
      with_target
        (setSelectionRange newCaretPosition newCaretPosition textarea) event.

(** [textarea.addEventListener('keydown', ...)] *)
Definition keydown_listener (event : KeyboardEvent) : KeyboardEvent :=
  if str_eqb (key_code event) (js "Tab") then tabHandler event else event.

End Imports.

(** What the host and the user can do to a constructed block: pick a mode,
    press a key in the textarea, paste, and edit the text of the textarea
    (leaving it as [text]). *)
Inductive Event :=
| Change (e : ChangeEvent)
| Keydown (e : KeyboardEvent)
| Paste (e : PasteEvent)
| Input (text : JSString).

(** A key press in the textarea of the block: the target of the event is
    that textarea, with the text it displays and the selection the event
    comes with; the listener runs, and the textarea keeps the text the
    handler assigned.  The handler assigns [value] exactly when it changes
    the text.  The line start is the one of [Utils]. *)
Definition keydown_on (t : TextAreaNode) (e : KeyboardEvent) : TextAreaNode :=
  let event :=
    with_target {| value := textarea_value t;
                   selectionStart := selectionStart (target e);
                   selectionEnd := selectionEnd (target e) |} e in
  let event := keydown_listener Utils.getLineStartPosition event in
  if str_eqb (value (target event)) (textarea_value t) then t
  else textarea_set_value (value (target event)) t.

Definition with_textarea (f : TextAreaNode -> TextAreaNode)
  (this : Instance) : Instance :=
  with_nodes
    {| nodes_holder := nodes_holder (nodes this);
       nodes_selector := nodes_selector (nodes this);
       nodes_textarea := option_map f (nodes_textarea (nodes this)) |}
    this.

(** The effect of an event on the instance and its view. *)
Definition dispatch (this : Instance) (e : Event) : Instance :=
  match e with
  | Change c => change_listener this c
  | Keydown k => with_textarea (fun t => keydown_on t k) this
  | Paste p => onPaste this p
  | Input text => with_textarea (textarea_set_value text) this
  end.

Definition run (this : Instance) (es : list Event) : Instance :=
  fold_left dispatch es this.

End CodeTool.

(* ================================================================== *)
(** * Vocabulary of the specification *)

Module Spec.
Import JS DOM CodeTool.

(** [T[a:b]]: the code units of [T] from offset [a] up to offset [b]. *)
Definition slice (T : JSString) (a b : nat) : JSString :=
  firstn (b - a) (skipn a T).

(** [T[a:]] *)
Definition from (T : JSString) (a : nat) : JSString := skipn a T.

(** The two-space indentation unit [U]. *)
Definition U : JSString := [SPACE; SPACE].

(** [a ?? b] *)
Definition nullish (a b : Value) : Value :=
  match a with
  | Undefined => b
  | _ => a
  end.

(** The keys of a registry in the order in which they were registered. *)
Definition registration_order (registry : Object) : list JSString :=
  map fst (properties registry).

Definition is_key (registry : Object) (k : JSString) : Prop :=
  In k (registration_order registry).

(** The canonical registry [{"text": "Plain Text"}]. *)
Definition canonical_registry : Object :=
  literal [(js "text", Str (js "Plain Text"))].

(** The key the constructor resolves from the configuration (its local
    [selectedMode]), the registry it keeps, the record it stores and the
    lines it writes to the console. *)
Definition initialSelectedKey (o : Options) : Value :=
  fst (select_mode (effective_modes (options_config o)) (options_config o)).

Definition effective_registry (o : Options) : Object :=
  modes (fst (constructor o)).

Definition initial_data (o : Options) : CodeData :=
  get_data (fst (constructor o)).

Definition warnings (o : Options) : list JSString := snd (constructor o).

(** The selection recorded by the last change event, [initial] when the
    selector was never changed. *)
Fixpoint last_selected (es : list Event) (initial : Value) : Value :=
  match es with
  | [] => initial
  | Change c :: r => last_selected r (Str (change_target_value c))
  | _ :: r => last_selected r initial
  end.

(** A Tab key press on a text control holding [T] with the caret at [c]. *)
Definition tab_press (shift : bool) (T : JSString) (c : Z) : KeyboardEvent :=
  {| key_code := js "Tab"; shiftKey := shift;
     target := {| value := T; selectionStart := c; selectionEnd := c |};
     propagationStopped := false; defaultPrevented := false |}.

(** Shift+Tab with the caret at [c], then Tab at the caret this leaves. *)
Definition outdent_then_indent (lineStart : JSString -> Z -> Z)
  (T : JSString) (c : Z) : TextControl :=
  let t1 := target (tabHandler lineStart (tab_press true T c)) in
  target (tabHandler lineStart
            (tab_press false (value t1) (selectionStart t1))).

End Spec.

(** A host for the worked examples: the translation service returns the
    phrase it is given. *)
Module Host.
Import JS DOM CodeTool.

Definition api : API :=
  {| i18n_t := fun v => match v with Str s => s | _ => [] end;
     styles_block := js "cdx-block";
     styles_input := js "cdx-input" |}.


Definition no_data : CodeData := {| code := Undefined; mode := Undefined |}.

Definition options (data : CodeData) (config : CodeConfig) : Options :=
  {| options_data := data; options_config := config;
     options_api := api; options_readOnly := false |}.

Definition config_with (registry : Object) (defaultMode : Value) : CodeConfig :=
  {| config_placeholder := Undefined;
     config_modes := Some registry;
     config_defaultMode := defaultMode |}.

(** [{ js: "JavaScript", go: "Go" }] *)
Definition js_go : Object :=
  literal [(js "js", Str (js "JavaScript")); (js "go", Str (js "Go"))].

(** The block wrapper as the host hands it to [save]: a selector and a
    textarea whose live content is [live]. *)
Definition block (live : JSString) : Node :=
  Element (js "div") []
    [ Element (js "select") (js "go")
        [ Element (js "option") (js "js") [Text (js "JavaScript")];
          Element (js "option") (js "go") [Text (js "Go")] ];
      Element (js "textarea") live [] ].

(** A pasted [<pre>] element holding [text]. *)
Definition pre (text : JSString) : Node :=
  Element (js "pre") [] [Text text].

End Host.

(** Sequences of operations on one block. *)
Module Usage.
Import JS DOM CodeTool Spec.

(** The same key press on a selection that ends at [e]. *)
Definition with_selectionEnd (e : Z) (event : KeyboardEvent) : KeyboardEvent :=
  with_target {| value := value (target event);
                 selectionStart := selectionStart (target event);
                 selectionEnd := e |} event.

(** [n] presses of Tab in a row, each at the caret the one before left. *)
Fixpoint press_tab (lineStart : JSString -> Z -> Z) (n : nat)
  (t : TextControl) : TextControl :=
  match n with
  | O => t
  | S n' =>
      press_tab lineStart n'
        (target (tabHandler lineStart
                   (tab_press false (value t) (selectionStart t))))
  end.

(** Tab with the caret at [c], then Shift+Tab at the caret this leaves. *)
Definition indent_then_outdent (lineStart : JSString -> Z -> Z)
  (T : JSString) (c : Z) : TextControl :=
  let t1 := target (tabHandler lineStart (tab_press false T c)) in
  target (tabHandler lineStart
            (tab_press true (value t1) (selectionStart t1))).

(** The text of the last paste, [initial] when nothing was pasted. *)
Fixpoint last_pasted (es : list Event) (initial : Value) : Value :=
  match es with
  | [] => initial
  | Paste p :: r => last_pasted r (Str (textContent (detail_data p)))
  | _ :: r => last_pasted r initial
  end.

(** Until it is edited, the textarea holds the stored code as raw value. *)
Definition pristine_in_sync (this : Instance) : Prop :=
  exists t,
    nodes_textarea (nodes this) = Some t
    /\ (textarea_dirty t = false ->
        textarea_rawValue t = toDOMString (code (get_data this))).

End Usage.

(* ================================================================== *)
(** * String operations against the slices of the specification *)

Section Strings.
Import JS DOM CodeTool Spec.

Lemma length_nonneg (s : JSString) : 0 <= length s.
Proof. unfold length. lia. Qed.

Lemma str_eqb_eq (a b : JSString) : str_eqb a b = true <-> a = b.
Proof.
  unfold str_eqb. destruct (list_eq_dec N.eq_dec a b); split; congruence.
Qed.

Lemma str_eqb_neq (a b : JSString) : str_eqb a b = false <-> a <> b.
Proof.
  unfold str_eqb. destruct (list_eq_dec N.eq_dec a b); split; congruence.
Qed.

(** [T.substring(0, c)] is [T[0:c]], whatever the offset. *)
Lemma substring_prefix (T : JSString) (c : Z) :
  substring T 0 (Some c) = firstn (Z.to_nat c) T.
Proof.
  unfold substring, clamp, length.
  destruct (Z_lt_le_dec c 0) as [Hneg | Hpos].
  - replace (Z.to_nat c) with 0%nat by lia.
    replace (Z.max c 0) with 0 by lia.
    rewrite !Z.max_id. rewrite !Z.min_l by lia. reflexivity.
  - destruct (Z_le_gt_dec c (Z.of_nat (List.length T))) as [Hin | Hout].
    + replace (Z.min (Z.max 0 0) (Z.of_nat (List.length T))) with 0 by lia.
      replace (Z.min (Z.max c 0) (Z.of_nat (List.length T))) with c by lia.
      rewrite Z.min_l, Z.max_r by lia. simpl skipn.
      f_equal. lia.
    + replace (Z.min (Z.max 0 0) (Z.of_nat (List.length T))) with 0 by lia.
      replace (Z.min (Z.max c 0) (Z.of_nat (List.length T)))
        with (Z.of_nat (List.length T)) by lia.
      rewrite Z.min_l, Z.max_r by lia. simpl skipn.
      rewrite !firstn_all2 by lia. reflexivity.
Qed.

(** [T.substring(c)] is [T[c:]], whatever the offset. *)
Lemma substring_suffix (T : JSString) (c : Z) :
  substring T c None = skipn (Z.to_nat c) T.
Proof.
  unfold substring, clamp, length.
  set (n := List.length T).
  replace (Z.min (Z.max (Z.of_nat n) 0) (Z.of_nat n)) with (Z.of_nat n) by lia.
  destruct (Z_le_gt_dec c (Z.of_nat n)) as [Hin | Hout].
  - rewrite Z.min_l, Z.max_r by lia.
    replace (Z.to_nat (Z.min (Z.max c 0) (Z.of_nat n))) with (Z.to_nat c) by lia.
    apply firstn_all2. rewrite length_skipn. fold n. lia.
  - replace (Z.min (Z.max c 0) (Z.of_nat n)) with (Z.of_nat n) by lia.
    rewrite Z.min_id, Z.max_id, Z.sub_diag. simpl firstn.
    symmetry. apply skipn_all2. fold n. lia.
Qed.

(** For an offset that is not negative, [T.substr(s, 2)] is [T[s:s+2]]. *)
Lemma substr_slice (T : JSString) (s : Z) :
  0 <= s ->
  substr T s 2 = slice T (Z.to_nat s) (Z.to_nat s + 2).
Proof.
  intros Hs. unfold substr, slice, clamp, length.
  set (n := List.length T).
  replace (s <? 0) with false by (symmetry; apply Z.ltb_ge; lia).
  replace (Z.to_nat s + 2 - Z.to_nat s)%nat with 2%nat by lia.
  destruct (Z_le_gt_dec s (Z.of_nat n)) as [Hin | Hout].
  - rewrite (Z.min_l s) by lia.
    set (X := skipn (Z.to_nat s) T).
    assert (HX : List.length X = (n - Z.to_nat s)%nat)
      by (unfold X; rewrite length_skipn; reflexivity).
    replace (Z.to_nat (Z.min (s + Z.min (Z.max 2 0) (Z.of_nat n)) (Z.of_nat n) - s))
      with (Nat.min 2 (List.length X)) by lia.
    rewrite <- firstn_firstn. f_equal. apply firstn_all.
  - rewrite (Z.min_r s) by lia.
    rewrite !skipn_all2 by (fold n; lia).
    rewrite !firstn_nil. reflexivity.
Qed.

Lemma indentation_is_U : indentation = U.
Proof. reflexivity. Qed.

End Strings.

(* ================================================================== *)
(** * tabHandler *)

Section TabHandler.
Import JS DOM CodeTool Spec.

Variable lineStart : JSString -> Z -> Z.

(** The handler always silences the event, whichever branch it takes. *)
Lemma tabHandler_silences (ev : KeyboardEvent) :
  propagationStopped (tabHandler lineStart ev) = true
  /\ defaultPrevented (tabHandler lineStart ev) = true.
Proof.
  unfold tabHandler. cbn [stopPropagation preventDefault shiftKey].
  destruct (shiftKey ev); cbn [negb].
  - destruct (negb (str_eqb _ _)); split; reflexivity.
  - split; reflexivity.
Qed.

(** An offset inside the text is the offset the control takes. *)
Lemma text_offset_inside (len x : Z) :
  0 <= x <= len -> text_offset len x = x.
Proof.
  intros Hx. unfold text_offset.
  destruct (Z.leb_spec 0 x); [| lia].
  destruct (Z.leb_spec x len); [reflexivity | lia].
Qed.

(** A negative offset, down to -2^32, on a text shorter than 2^32 code
    units less that offset is taken as the end of the text. *)
Lemma text_offset_negative (len x : Z) :
  - 4294967296 <= x < 0 -> 0 <= len <= 4294967296 + x ->
  text_offset len x = len.
Proof.
  intros Hx Hlen. unfold text_offset, unsigned_long.
  destruct (Z.leb_spec 0 x); [lia |]. simpl.
  replace (x mod 4294967296) with (x + 4294967296).
  - lia.
  - apply Z.mod_unique with (q := -1); lia.
Qed.

(** On every text shorter than 2^32 code units, the offset taken is the
    converted offset, cut at the end of the text. *)
Lemma text_offset_unsigned_long (len x : Z) :
  0 <= len < 4294967296 ->
  text_offset len x = Z.min (unsigned_long x) len.
Proof.
  intros Hlen. unfold text_offset, unsigned_long.
  destruct (Z.leb_spec 0 x); simpl; [| reflexivity].
  destruct (Z.leb_spec x len); [| reflexivity].
  rewrite Z.mod_small by lia. lia.
Qed.

Lemma setSelectionRange_collapsed (n : Z) (t : TextControl) :
  setSelectionRange n n t
  = {| value := value t;
       selectionStart := text_offset (length (value t)) n;
       selectionEnd := text_offset (length (value t)) n |}.
Proof.
  unfold setSelectionRange. cbv zeta. rewrite Z.leb_refl. reflexivity.
Qed.

Lemma length_splice (T : JSString) (n : nat) :
  length (firstn n T ++ U ++ skipn n T) = length T + 2.
Proof.
  unfold length. rewrite length_app. cbn [U app List.length].
  rewrite <- (firstn_skipn n T) at 3. rewrite length_app. lia.
Qed.

(** Tab with the caret inside the text: the unit goes in at the caret and
    the caret moves past it. *)
Lemma tabHandler_indent (ev : KeyboardEvent) :
  shiftKey ev = false ->
  0 <= selectionStart (target ev) <= length (value (target ev)) ->
  target (tabHandler lineStart ev)
  = {| value := firstn (Z.to_nat (selectionStart (target ev))) (value (target ev))
                ++ U
                ++ skipn (Z.to_nat (selectionStart (target ev))) (value (target ev));
       selectionStart := selectionStart (target ev) + 2;
       selectionEnd := selectionStart (target ev) + 2 |}.
Proof.
  intros Hshift Hc. unfold tabHandler.
  cbn [stopPropagation preventDefault shiftKey target].
  rewrite Hshift. cbn [negb with_target target].
  rewrite setSelectionRange_collapsed.
  cbn [set_value value]. change (length indentation) with 2.
  rewrite substring_prefix, substring_suffix. change indentation with U.
  rewrite text_offset_inside by (rewrite length_splice; lia).
  reflexivity.
Qed.

(** Shift+Tab: the test on the first two code units of the line decides. *)
Lemma tabHandler_outdent (ev : KeyboardEvent) :
  let T := value (target ev) in
  let c := selectionStart (target ev) in
  let s := Z.to_nat (lineStart T c) in
  shiftKey ev = true ->
  0 <= lineStart T c ->
  target (tabHandler lineStart ev)
  = if str_eqb (slice T s (s + 2)) U
    then {| value := firstn s T ++ skipn (s + 2) T;
            selectionStart :=
              text_offset (length (firstn s T ++ skipn (s + 2) T)) (c - 2);
            selectionEnd :=
              text_offset (length (firstn s T ++ skipn (s + 2) T)) (c - 2) |}
    else target ev.
Proof.
  intros T c s Hshift Hs. unfold tabHandler.
  cbn [stopPropagation preventDefault shiftKey target].
  rewrite Hshift. cbn [negb].
  change (length indentation) with 2.
  rewrite substr_slice by exact Hs.
  fold T c s. change indentation with U.
  destruct (str_eqb (slice T s (s + 2)) U); cbn [negb with_target target].
  - rewrite setSelectionRange_collapsed. cbn [set_value value].
    rewrite substring_prefix, substring_suffix. fold T c s.
    replace (Z.to_nat (lineStart T c + 2)) with (s + 2)%nat by (unfold s; lia).
    reflexivity.
  - reflexivity.
Qed.

(** Inserting the unit [k] code units into [B] gives back [U ++ B] exactly
    when those [k] code units are spaces. *)
Lemma unit_commutes (x : JSString) :
  x ++ U = U ++ x <-> Forall (fun u => u = SPACE) x.
Proof.
  unfold U. induction x as [| a x IH]; simpl.
  - split; intros; [constructor | reflexivity].
  - split.
    + intros H. injection H as Ha Hx. subst a.
      constructor; [reflexivity |]. apply IH. simpl. exact Hx.
    + intros H. inversion H as [| ? ? Ha Hx]; subst.
      apply IH in Hx. simpl in Hx. rewrite Hx. reflexivity.
Qed.

Lemma reinsert_after (A B : JSString) (k : nat) :
  (k <= List.length B)%nat ->
  firstn (List.length A + k) (A ++ B) ++ U ++ skipn (List.length A + k) (A ++ B)
  = A ++ U ++ B
  <-> Forall (fun u => u = SPACE) (firstn k B).
Proof.
  intros Hk.
  rewrite firstn_app_2, skipn_app.
  rewrite skipn_all2 by lia.
  replace (List.length A + k - List.length A)%nat with k by lia.
  rewrite app_nil_l.
  rewrite <- (firstn_skipn k B) at 3.
  set (X := firstn k B). set (Y := skipn k B).
  rewrite <- unit_commutes.
  split; intros H.
  - rewrite <- app_assoc in H. apply app_inv_head in H.
    rewrite !app_assoc in H. apply app_inv_tail in H. exact H.
  - rewrite <- app_assoc. f_equal. rewrite !app_assoc. f_equal. exact H.
Qed.

(** A line that starts with the unit splits the text around it. *)
Lemma split_at_unit (T : JSString) (s : nat) :
  slice T s (s + 2) = U ->
  T = firstn s T ++ U ++ skipn (s + 2) T
  /\ List.length (firstn s T) = s
  /\ (s + 2 <= List.length T)%nat.
Proof.
  unfold slice. replace (s + 2 - s)%nat with 2%nat by lia. intros HU.
  assert (Hlen : (s + 2 <= List.length T)%nat).
  { assert (H2 : List.length (firstn 2 (skipn s T)) = 2%nat)
      by (rewrite HU; reflexivity).
    rewrite length_firstn, length_skipn in H2. lia. }
  split; [| split].
  - rewrite <- HU.
    replace (s + 2)%nat with (2 + s)%nat by lia.
    rewrite <- skipn_skipn, firstn_skipn, firstn_skipn. reflexivity.
  - rewrite length_firstn. lia.
  - exact Hlen.
Qed.

(** C1 -- Indent path.  For every text T and caret offset c with
    0 <= c <= len(T), Tab without Shift produces T' = T[0:c] + U + T[c:]
    with U the two-space unit, and moves the caret to c + 2; hence
    len(T') = len(T) + 2, and deleting the two code units at offset c of T'
    gives T back. *)
Theorem indent_path (ev : KeyboardEvent) :
  let T := value (target ev) in
  let c := selectionStart (target ev) in
  let t' := target (tabHandler lineStart ev) in
  shiftKey ev = false ->
  0 <= c <= length T ->
  U = [SPACE; SPACE]
  /\ value t' = slice T 0 (Z.to_nat c) ++ U ++ from T (Z.to_nat c)
  /\ selectionStart t' = c + 2
  /\ length (value t') = length T + 2
  /\ slice (value t') 0 (Z.to_nat c) ++ from (value t') (Z.to_nat c + 2) = T.
Proof.
  intros T c t' Hshift Hc. unfold t'.
  rewrite (tabHandler_indent ev Hshift Hc). fold T c. simpl.
  unfold slice, from, length in *. rewrite !Nat.sub_0_r. simpl skipn.
  set (n := Z.to_nat c).
  assert (Hn : (n <= List.length T)%nat) by (unfold n; lia).
  assert (HA : List.length (firstn n T) = n) by (rewrite length_firstn; lia).
  repeat split.
  - rewrite length_app, HA. simpl List.length. rewrite length_skipn. lia.
  - rewrite firstn_app, skipn_app, HA.
    rewrite firstn_firstn, Nat.min_id, Nat.sub_diag, firstn_O, app_nil_r.
    rewrite (skipn_all2 (firstn n T)) by lia.
    replace (n + 2 - n)%nat with 2%nat by lia.
    apply firstn_skipn.
Qed.

(** C2 (as amended) -- Outdent path.  With s the line start reported for
    the caret (never negative): when T[s:s+2] is not the unit U, Shift+Tab
    leaves the text and the caret as they are; when it is U, the text
    becomes T' = T[0:s] + T[s+2:] and the handler asks for the caret c - 2
    without clamping it.  The text control keeps that offset when
    2 <= c <= len(T), also when it lies before s; for a caret c < 2 it takes
    the negative offset as one past the end, and the caret ends at len(T'),
    never at a negative offset. *)
Theorem outdent_path (ev : KeyboardEvent) :
  let T := value (target ev) in
  let c := selectionStart (target ev) in
  let s := Z.to_nat (lineStart T c) in
  let t' := target (tabHandler lineStart ev) in
  shiftKey ev = true ->
  0 <= lineStart T c ->
  (slice T s (s + 2) <> U -> t' = target ev)
  /\ (slice T s (s + 2) = U ->
      value t' = slice T 0 s ++ from T (s + 2)
      /\ length (value t') = length T - 2
      /\ (2 <= c <= length T -> selectionStart t' = c - 2)
      /\ (0 <= c < 2 -> length T < 4294967296 ->
          selectionStart t' = length (value t'))
      /\ 0 <= selectionStart t').
Proof.
  intros T c s t' Hshift Hs. unfold t'.
  rewrite (tabHandler_outdent ev Hshift Hs). fold T c s.
  split; intros H.
  - apply str_eqb_neq in H. rewrite H. reflexivity.
  - destruct (split_at_unit T s H) as (_ & HA & Hlen).
    apply str_eqb_eq in H. rewrite H. cbn [value selectionStart].
    assert (Hlen' : length (firstn s T ++ skipn (s + 2) T) = length T - 2)
      by (unfold length; rewrite length_app, HA, length_skipn; lia).
    rewrite Hlen'. unfold length in *.
    split; [| split; [reflexivity | split; [| split]]].
    + unfold slice, from. rewrite Nat.sub_0_r. reflexivity.
    + intros Hc. apply text_offset_inside. lia.
    + intros Hc Hshort. apply text_offset_negative; lia.
    + unfold text_offset, unsigned_long.
      destruct ((0 <=? c - 2) && (c - 2 <=? Z.of_nat (List.length T) - 2))
        eqn:Hin.
      * apply andb_prop in Hin as [Hin _]. apply Z.leb_le in Hin. exact Hin.
      * pose proof (Z.mod_pos_bound (c - 2) 4294967296). lia.
Qed.

(** C3 (as amended) -- Composed round trip.  When the line of the caret
    starts with the unit U and the caret stands at or after the end of that
    unit (s + 2 <= c <= len(T)), Shift+Tab at c followed by Tab at the
    resulting caret c - 2 restores T exactly when every code unit between
    the unit and the caret, T[s+2:c], is a space. *)
Theorem outdent_indent_roundtrip (T : JSString) (c : Z) :
  let s := Z.to_nat (lineStart T c) in
  0 <= lineStart T c ->
  lineStart T c + 2 <= c <= length T ->
  slice T s (s + 2) = U ->
  value (outdent_then_indent lineStart T c) = T
  <-> Forall (fun u => u = SPACE) (slice T (s + 2) (Z.to_nat c)).
Proof.
  intros s Hs Hc HU. unfold outdent_then_indent.
  rewrite (tabHandler_outdent (tab_press true T c) eq_refl Hs).
  cbn [tab_press target value selectionStart]. fold s.
  rewrite (proj2 (str_eqb_eq _ _) HU).
  destruct (split_at_unit T s HU) as (HT & HA & Hlen).
  set (A := firstn s T) in *. set (B := skipn (s + 2) T) in *.
  unfold length in Hc.
  assert (HB : List.length B = (List.length T - (s + 2))%nat)
    by (unfold B; apply length_skipn).
  assert (HAB : length (A ++ B) = Z.of_nat (List.length T) - 2)
    by (unfold length; rewrite length_app, HA, HB; lia).
  cbn [value selectionStart].
  rewrite text_offset_inside by (rewrite HAB; unfold s in *; lia).
  assert (Hc2 : 0 <= selectionStart (target (tab_press false (A ++ B) (c - 2)))
                <= length (value (target (tab_press false (A ++ B) (c - 2)))))
    by (cbn [tab_press target value selectionStart]; rewrite HAB;
        unfold s in *; lia).
  rewrite (tabHandler_indent (tab_press false (A ++ B) (c - 2)) eq_refl Hc2).
  cbn [tab_press target value selectionStart].
  set (k := (Z.to_nat c - (s + 2))%nat).
  replace (Z.to_nat (c - 2)) with (List.length A + k)%nat
    by (rewrite HA; unfold k, s; lia).
  unfold slice. fold B. fold k.
  assert (Hk : (k <= List.length B)%nat) by (unfold k, s in *; lia).
  pose proof (reinsert_after A B k Hk) as R.
  rewrite <- HT in R. exact R.
Qed.

End TabHandler.

(* ================================================================== *)
(** * The line start of ./utils/string *)

Section LineStart.
Import JS Utils.

(** The scan keeps, for the part already read, the line start of the
    specification: one past the last line feed, 0 when there is none. *)
Lemma scan_line_start_spec (rest : JSString) :
  forall (read : JSString) (start : nat),
    (start <= List.length read)%nat ->
    (start = 0%nat \/ nth_error (read ++ rest) (start - 1) = Some LF) ->
    (forall i, (start <= i < List.length read)%nat ->
               nth_error (read ++ rest) i <> Some LF) ->
    let r := scan_line_start rest (List.length read) start in
    (r <= List.length (read ++ rest))%nat
    /\ (r = 0%nat \/ nth_error (read ++ rest) (r - 1) = Some LF)
    /\ (forall i, (r <= i < List.length (read ++ rest))%nat ->
                  nth_error (read ++ rest) i <> Some LF).
Proof.
  induction rest as [| u rest IH]; intros read start Hle Hsep Hnone; simpl.
  - rewrite app_nil_r in *. repeat split; assumption.
  - assert (Hu : nth_error (read ++ u :: rest) (List.length read) = Some u).
    { rewrite nth_error_app2 by lia. rewrite Nat.sub_diag. reflexivity. }
    replace (read ++ u :: rest) with ((read ++ [u]) ++ rest) in *
      by (rewrite <- app_assoc; reflexivity).
    replace (S (List.length read)) with (List.length (read ++ [u]))
      by (rewrite length_app; simpl; lia).
    apply IH.
    + rewrite length_app. simpl. destruct (N.eqb u LF); lia.
    + destruct (N.eqb_spec u LF) as [-> | Hneq].
      * right. rewrite length_app. simpl List.length.
        replace (List.length read + 1 - 1)%nat with (List.length read) by lia.
        exact Hu.
      * exact Hsep.
    + intros i Hi. rewrite length_app in Hi. simpl in Hi.
      destruct (N.eqb_spec u LF) as [-> | Hneq]; [lia |].
      destruct (Nat.eq_dec i (List.length read)) as [-> | Hi'].
      * rewrite Hu. congruence.
      * apply Hnone. lia.
Qed.

(** [getLineStartPosition] meets the words of the specification: with p the
    position brought into the text, the result s lies in [0, p], it is 0 or
    follows a line feed, and no line feed lies in [s, p). *)
Lemma getLineStartPosition_spec (T : JSString) (c : Z) :
  let s := Z.to_nat (getLineStartPosition T c) in
  let p := Nat.min (Z.to_nat c) (List.length T) in
  0 <= getLineStartPosition T c
  /\ (s <= p)%nat
  /\ (s = 0%nat \/ nth_error T (s - 1) = Some LF)
  /\ (forall i, (s <= i < p)%nat -> nth_error T i <> Some LF).
Proof.
  intros s p. unfold s, getLineStartPosition. clear s.
  rewrite Nat2Z.id.
  pose proof (scan_line_start_spec (firstn (Z.to_nat c) T) [] 0%nat) as H.
  simpl in H.
  set (s := scan_line_start (firstn (Z.to_nat c) T) 0 0) in *.
  rewrite length_firstn in H. fold p in H.
  destruct H as (Hle & Hsep & Hnone); [lia | left; reflexivity | intros; lia |].
  assert (Hnth : forall i, (i < p)%nat ->
                   nth_error (firstn (Z.to_nat c) T) i = nth_error T i).
  { intros i Hi. rewrite nth_error_firstn.
    destruct (Nat.ltb_spec i (Z.to_nat c)); [reflexivity | lia]. }
  split; [lia |]. split; [exact Hle |]. split.
  - destruct Hsep as [H0 | Hlf]; [left; exact H0 |].
    destruct (Nat.eq_dec s 0) as [H0 | Hpos]; [left; exact H0 | right].
    rewrite <- Hnth by lia. exact Hlf.
  - intros i Hi. rewrite <- Hnth by lia. apply Hnone. exact Hi.
Qed.

Lemma getLineStartPosition_nonneg (T : JSString) (c : Z) :
  0 <= getLineStartPosition T c.
Proof. unfold getLineStartPosition. lia. Qed.

End LineStart.

(* ================================================================== *)
(** * The constructor: registry and initial mode *)

Section Construction.
Import JS DOM CodeTool Spec.

(** What the constructor leaves in the instance and on the console. *)
Lemma constructor_result (o : Options) :
  let config := options_config o in
  let resolved := select_mode (effective_modes config) config in
  effective_registry o = effective_modes config
  /\ initial_data o
     = {| code := logical_or (code (options_data o)) (Str []);
          mode := logical_or (mode (options_data o)) (fst resolved) |}
  /\ warnings o = snd resolved
  /\ option_map select_value (nodes_selector (nodes (fst (constructor o))))
     = Some (logical_or (mode (options_data o)) (fst resolved)).
Proof.
  unfold effective_registry, initial_data, warnings, constructor.
  cbv zeta.
  destruct (select_mode _ _) as [selectedMode console].
  repeat split.
Qed.

(** Without array-index keys, [Object.keys] is the creation order. *)
Lemma ordered_keys_plain (ps : list (JSString * Value)) :
  forallb (fun k => negb (is_array_index k)) (map fst ps) = true ->
  ordered_keys ps = map fst ps.
Proof.
  unfold ordered_keys. generalize (map fst ps) as ks.
  intros ks H.
  assert (Hnone : filter is_array_index ks = []
                  /\ filter (fun k => negb (is_array_index k)) ks = ks).
  { induction ks as [| k ks IH]; simpl; [split; reflexivity |].
    simpl in H. apply andb_prop in H as [Hk Hks].
    destruct (IH Hks) as [IH1 IH2]. rewrite Hk.
    apply negb_true_iff in Hk. rewrite Hk, IH2. split; [exact IH1 | reflexivity]. }
  destruct Hnone as [-> ->]. reflexivity.
Qed.

(** The warning branch is taken exactly on a falsy lookup. *)
Lemma select_mode_string (registry : Object) (config : CodeConfig)
  (k : JSString) :
  config_defaultMode config = Str k ->
  select_mode registry config
  = if ToBoolean (Get registry k)
    then (Str k, [])
    else (Str DEFAULT_MODE_KEY, [WARNING]).
Proof.
  intros Hk. unfold select_mode. rewrite Hk.
  destruct (ToBoolean (Get registry k)); reflexivity.
Qed.

(** In an object literal, a name that is neither an own key nor a property
    of [Object.prototype] looks up as [undefined]. *)
Lemma Get_literal_missing (ps : list (JSString * Value)) (k : JSString) :
  has_key ps k = false ->
  has_key (hidden ObjectPrototype) k = false ->
  Get (literal ps) k = Undefined.
Proof.
  unfold has_key, literal. intros Hown Hproto. simpl Get.
  rewrite app_nil_r.
  destruct (own ps k); [discriminate |].
  simpl in Hproto |- *.
  repeat match goal with
         | |- context [str_eqb ?a k] => destruct (str_eqb a k); try discriminate
         | H : context [str_eqb ?a k] |- _ =>
             destruct (str_eqb a k); try discriminate
         end.
  reflexivity.
Qed.

(** C4 (as amended) -- Effective registry.  When [config.modes] is absent the
    effective registry is the single canonical entry {"text": "Plain Text"};
    when it is supplied the effective registry is [config.modes] itself, so
    the registry is empty exactly when an empty mapping was supplied. *)
Theorem effective_registry_fallback (o : Options) :
  effective_registry o
  = match config_modes (options_config o) with
    | None => canonical_registry
    | Some supplied => supplied
    end
  /\ registration_order canonical_registry = [js "text"]
  /\ (registration_order (effective_registry o) = []
      <-> exists supplied,
            config_modes (options_config o) = Some supplied
            /\ registration_order supplied = []).
Proof.
  destruct (constructor_result o) as (Hreg & _).
  rewrite Hreg. unfold effective_modes.
  destruct (config_modes (options_config o)) as [supplied |].
  - repeat split.
    + intros H. exists supplied. split; [reflexivity | exact H].
    + intros (m & Hm & Hempty). injection Hm as ->. exact Hempty.
  - repeat split.
    + intros H. discriminate H.
    + intros (m & Hm & _). discriminate Hm.
Qed.

(** C6 (as amended) -- First-key default.  When [config.defaultMode] is not
    a string, the resolved key is the first key of the effective registry in
    the own-key order of JavaScript (array-index keys first, in ascending
    numeric order, then the other keys in registration order; [undefined]
    for an empty registry), and nothing is written to the console; it is the
    first key in registration order whenever no key is an array index. *)
Theorem first_key_default (o : Options) :
  typeof_is_string (config_defaultMode (options_config o)) = false ->
  initialSelectedKey o = index0 (keys (effective_registry o))
  /\ warnings o = []
  /\ (forallb (fun k => negb (is_array_index k))
        (registration_order (effective_registry o)) = true ->
      initialSelectedKey o
      = index0 (registration_order (effective_registry o))).
Proof.
  intros Hnot.
  destruct (constructor_result o) as (Hreg & _ & Hwarn & _).
  rewrite Hwarn, Hreg. unfold initialSelectedKey, select_mode.
  destruct (config_defaultMode (options_config o)); try discriminate Hnot;
    (repeat split;
     intros Hplain; unfold keys, registration_order in *;
     rewrite ordered_keys_plain by exact Hplain; reflexivity).
Qed.

(** C7 (as amended) -- Prior-data override.  The effective initial mode is
    [priorData.mode || initialSelectedKey]: a prior mode that is a non-empty
    string, registered or not, overrides the key resolved from the
    configuration; when the prior mode is absent or the empty string the
    resolved key applies.  The selector is given the same value. *)
Theorem prior_mode_override (o : Options) :
  let prior := mode (options_data o) in
  let effective := mode (initial_data o) in
  effective = (if ToBoolean prior then prior else initialSelectedKey o)
  /\ (forall k, prior = Str k -> k <> [] -> effective = Str k)
  /\ (prior = Undefined \/ prior = Str [] ->
      effective = initialSelectedKey o)
  /\ option_map select_value (nodes_selector (nodes (fst (constructor o))))
     = Some effective.
Proof.
  intros prior effective.
  destruct (constructor_result o) as (_ & Hdata & _ & Hsel).
  unfold effective. rewrite Hdata, Hsel. simpl mode.
  fold prior. unfold logical_or. fold (initialSelectedKey o).
  repeat split.
  - intros k Hk Hne. rewrite Hk. destruct k; [contradiction | reflexivity].
  - intros [H | H]; rewrite H; reflexivity.
Qed.

End Construction.

(* ================================================================== *)
(** * save, onPaste and the data setter *)

Section Widget.
Import JS DOM CodeTool Spec.

Lemma get_data_set_data (d : CodeData) (this : Instance) :
  get_data (set_data d this) = d.
Proof.
  unfold set_data, get_data. simpl.
  destruct (nodes_textarea (nodes this)); reflexivity.
Qed.

(** Neither a change of the selector, nor a key press, nor a paste lets the
    stored mode drift from the last selection. *)
Lemma run_mode (es : list Event) :
  forall this : Instance,
    mode (get_data (run this es)) = last_selected es (mode (get_data this)).
Proof.
  unfold run.
  induction es as [| e es IH]; intros this; simpl; [reflexivity |].
  rewrite IH. destruct e as [c | k | p | text]; simpl.
  - reflexivity.
  - reflexivity.
  - unfold onPaste. rewrite get_data_set_data. reflexivity.
  - reflexivity.
Qed.

(** What [find_element] returns is an element with the tag asked for. *)
Lemma find_element_tag (tag : JSString) (n : Node) :
  forall e, find_element tag n = Some e -> exists v cs, e = Element tag v cs.
Proof.
  induction n as [d | name v cs IH] using Node_forall_ind; intros e H.
  - discriminate H.
  - simpl in H. destruct (str_eqb name tag) eqn:Hname.
    + apply str_eqb_eq in Hname. subst name.
      injection H as <-. eauto.
    + induction IH as [| c r Hc _ IHr]; simpl in H; [discriminate H |].
      destruct (find_element tag c) as [found |] eqn:Hfound.
      * injection H as <-. apply Hc. reflexivity.
      * apply IHr. exact H.
Qed.

Lemma querySelector_tag (tag : JSString) (n e : Node) :
  querySelector tag n = Some e -> exists v cs, e = Element tag v cs.
Proof.
  destruct n as [d | name v cs]; simpl; [discriminate |].
  induction cs as [| c r IH]; simpl; [discriminate |].
  destruct (find_element tag c) as [found |] eqn:Hfound.
  - intros H. injection H as <-. eapply find_element_tag. exact Hfound.
  - exact IH.
Qed.

(** C8 -- Save contract.  In every state of the widget, reached through any
    changes of the selector, key presses and pastes, [save] returns the
    record made of the live content of the textarea of the wrapper it is
    given and of the last selected mode key: the one recorded by the latest
    change of the selector, the mode the state started with when the
    selector was never changed. *)
Theorem save_contract (this : Instance) (es : list Event)
  (codeWrapper : Node) (live : JSString) (name : JSString) (cs : list Node) :
  querySelector (js "textarea") codeWrapper = Some (Element name live cs) ->
  name = js "textarea"
  /\ save (run this es) codeWrapper
     = Ok {| code := Str live;
             mode := last_selected es (mode (get_data this)) |}
  /\ save this codeWrapper
     = Ok {| code := Str live; mode := mode (get_data this) |}.
Proof.
  intros Hq. split; [| split].
  - apply querySelector_tag in Hq as (v & cs' & Heq).
    injection Heq as -> _ _. reflexivity.
  - unfold save. rewrite Hq, run_mode. reflexivity.
  - unfold save. rewrite Hq. reflexivity.
Qed.

(** C9 -- Paste intake.  Whatever the state and the pasted node, [onPaste]
    stores the text content of the node as the code and keeps the stored
    mode. *)
Theorem paste_intake (this : Instance) (event : PasteEvent) :
  code (get_data (onPaste this event))
  = Str (textContent (detail_data event))
  /\ mode (get_data (onPaste this event)) = mode (get_data this).
Proof.
  unfold onPaste. rewrite get_data_set_data. split; reflexivity.
Qed.



End Widget.

(* ================================================================== *)
(** * Worked inputs *)

Section Scenarios.
Import JS DOM CodeTool Spec.

Local Notation lineStart := Utils.getLineStartPosition.

(** Scenario 1 of the specification: Tab on "foo" with the caret at 0. *)
Lemma indent_path_witness :
  let ev := tab_press false (js "foo") 0 in
  shiftKey ev = false
  /\ 0 <= selectionStart (target ev) <= length (value (target ev))
  /\ value (target (tabHandler lineStart ev)) = js "  foo"
  /\ selectionStart (target (tabHandler lineStart ev)) = 2.
Proof.
  intros ev.
  assert (Hshift : shiftKey ev = false) by reflexivity.
  assert (Hc : 0 <= selectionStart (target ev) <= length (value (target ev)))
    by (vm_compute; split; discriminate).
  destruct (indent_path lineStart ev Hshift Hc) as (_ & Hv & Hcaret & _).
  split; [exact Hshift |]. split; [exact Hc |].
  split; [exact Hv | exact Hcaret].
Defined.

(** Shift+Tab on "  foo" with the caret at 0: the unit goes, and the caret
    ends behind the last code unit of "foo". *)
Lemma outdent_path_witness :
  let ev := tab_press true (js "  foo") 0 in
  shiftKey ev = true
  /\ 0 <= lineStart (value (target ev)) (selectionStart (target ev))
  /\ value (target (tabHandler lineStart ev)) = js "foo"
  /\ selectionStart (target (tabHandler lineStart ev)) = 3.
Proof.
  intros ev.
  assert (Hshift : shiftKey ev = true) by reflexivity.
  assert (Hs : 0 <= lineStart (value (target ev)) (selectionStart (target ev)))
    by (vm_compute; discriminate).
  destruct (outdent_path lineStart ev Hshift Hs) as [_ Hunit].
  destruct (Hunit eq_refl) as (Hv & _ & _ & Hend & _).
  assert (Hc : 0 <= selectionStart (target ev) < 2)
    by (vm_compute; split; [discriminate | reflexivity]).
  assert (Hshort : length (value (target ev)) < 4294967296)
    by (vm_compute; reflexivity).
  split; [exact Hshift |]. split; [exact Hs |].
  split; [exact Hv | exact (Hend Hc Hshort)].
Defined.

(** C2, refuted as stated: on "  foo" with the caret at 0 the line starts
    with the unit and the handler asks for the caret -2; the text control
    takes that offset as one past the end, and the caret is 3, not -2. *)
Lemma outdent_caret_jumps_to_end :
  let T := js "  foo" in
  let c := 0 in
  let s := Z.to_nat (lineStart T c) in
  let t' := target (tabHandler lineStart (tab_press true T c)) in
  slice T s (s + 2) = U
  /\ value t' = js "foo"
  /\ selectionStart t' = 3
  /\ selectionStart t' <> c - 2.
Proof.
  vm_compute. repeat split. discriminate.
Qed.

(** Scenarios 2 and 3 of the specification. *)
Example outdent_scenario_2 :
  target (tabHandler lineStart (tab_press true (js "  foo") 2))
  = {| value := js "foo"; selectionStart := 0; selectionEnd := 0 |}.
Proof. reflexivity. Qed.

Example outdent_scenario_3 :
  target (tabHandler lineStart (tab_press true (js "foo") 1))
  = {| value := js "foo"; selectionStart := 1; selectionEnd := 1 |}.
Proof. reflexivity. Qed.

(** C3, refuted as stated: on "  foo" with the caret at the end, the line
    starts with the unit, Shift+Tab leaves "foo" with the caret at 3, and
    Tab there gives "foo  ". *)
Lemma outdent_indent_not_inverse :
  let T := js "  foo" in
  let c := 5 in
  let s := Z.to_nat (lineStart T c) in
  0 <= c <= length T
  /\ slice T s (s + 2) = U
  /\ value (outdent_then_indent lineStart T c) = js "foo  "
  /\ value (outdent_then_indent lineStart T c) <> T.
Proof.
  vm_compute. repeat split; discriminate.
Qed.

(** Four spaces before "x", caret after the fourth: the round trip holds. *)
Lemma outdent_indent_roundtrip_witness :
  let T := js "    x" in
  let c := 4 in
  let s := Z.to_nat (lineStart T c) in
  0 <= lineStart T c
  /\ lineStart T c + 2 <= c <= length T
  /\ slice T s (s + 2) = U
  /\ value (outdent_then_indent lineStart T c) = T.
Proof.
  intros T c s.
  assert (H0 : 0 <= lineStart T c) by (vm_compute; discriminate).
  assert (Hc : lineStart T c + 2 <= c <= length T)
    by (vm_compute; split; discriminate).
  assert (HU : slice T s (s + 2) = U) by reflexivity.
  split; [exact H0 |]. split; [exact Hc |]. split; [exact HU |].
  apply (outdent_indent_roundtrip lineStart T c H0 Hc HU).
  repeat constructor.
Defined.

(** C4, refuted as stated: an empty mapping is kept as the registry. *)
Lemma empty_mapping_stays_empty :
  let o := Host.options Host.no_data (Host.config_with (literal []) Undefined) in
  registration_order (effective_registry o) = []
  /\ effective_registry o <> canonical_registry.
Proof.
  vm_compute. split; [reflexivity | discriminate].
Qed.

(** A default mode that is neither a key of the literal nor a name of
    [Object.prototype] is warned about and replaced by "text", whether or
    not "text" is a key. *)
Lemma missing_default_mode_warns (ps : list (JSString * Value))
  (config : CodeConfig) (k : JSString) :
  config_defaultMode config = Str k ->
  has_key ps k = false ->
  has_key (hidden ObjectPrototype) k = false ->
  select_mode (literal ps) config = (Str (js "text"), [WARNING]).
Proof.
  intros Hk Hown Hproto.
  rewrite (select_mode_string _ _ k Hk).
  rewrite (Get_literal_missing ps k Hown Hproto). reflexivity.
Qed.

(** C5 at the failing input: with the registry { js: "JavaScript" } and the
    default mode "toString", which is not a key of the registry, nothing is
    written to the console and "toString" is the selected key. *)
Theorem inherited_name_accepted :
  let registry := literal [(js "js", Str (js "JavaScript"))] in
  let o := Host.options Host.no_data
             (Host.config_with registry (Str (js "toString"))) in
  ~ is_key (effective_registry o) (js "toString")
  /\ registration_order (effective_registry o) = [js "js"]
  /\ warnings o = []
  /\ initialSelectedKey o = Str (js "toString")
  /\ mode (initial_data o) = Str (js "toString").
Proof.
  vm_compute. repeat split. intros [H | []]. discriminate H.
Qed.

(** C6, refuted as stated: "b" was registered before "1", and "1" is the
    key the constructor resolves. *)
Lemma array_index_key_comes_first :
  let registry := literal [(js "b", Str (js "B")); (js "1", Str (js "One"))] in
  let o := Host.options Host.no_data (Host.config_with registry Undefined) in
  typeof_is_string (config_defaultMode (options_config o)) = false
  /\ index0 (registration_order (effective_registry o)) = Str (js "b")
  /\ initialSelectedKey o = Str (js "1")
  /\ initialSelectedKey o <> index0 (registration_order (effective_registry o)).
Proof.
  vm_compute. repeat split. discriminate.
Qed.

Lemma first_key_default_witness :
  let o := Host.options Host.no_data (Host.config_with Host.js_go Undefined) in
  typeof_is_string (config_defaultMode (options_config o)) = false
  /\ initialSelectedKey o = Str (js "js")
  /\ warnings o = [].
Proof.
  intros o.
  assert (H : typeof_is_string (config_defaultMode (options_config o)) = false)
    by reflexivity.
  destruct (first_key_default o H) as (Hkey & Hwarn & _).
  split; [exact H |]. split; [exact Hkey | exact Hwarn].
Defined.

(** C7, refuted as stated: a prior mode that is the empty string gives way
    to the key resolved from the configuration. *)
Lemma empty_prior_mode_gives_way :
  let o := Host.options {| code := Undefined; mode := Str [] |}
             (Host.config_with Host.js_go (Str (js "go"))) in
  mode (initial_data o) = Str (js "go")
  /\ nullish (mode (options_data o)) (initialSelectedKey o) = Str []
  /\ mode (initial_data o)
     <> nullish (mode (options_data o)) (initialSelectedKey o).
Proof.
  vm_compute. repeat split. discriminate.
Qed.

(** Scenario 4 of the specification. *)
Example default_mode_scenario_4 :
  let o := Host.options Host.no_data
             (Host.config_with Host.js_go (Str (js "go"))) in
  mode (initial_data o) = Str (js "go") /\ warnings o = [].
Proof. split; reflexivity. Qed.

(** Scenario 5 of the specification: the text surface holds "x=1" and the
    mode is still "go". *)
Lemma save_contract_witness :
  let o := Host.options Host.no_data
             (Host.config_with Host.js_go (Str (js "go"))) in
  let this := fst (constructor o) in
  querySelector (js "textarea") (Host.block (js "x=1"))
  = Some (Element (js "textarea") (js "x=1") [])
  /\ save this (Host.block (js "x=1"))
     = Ok {| code := Str (js "x=1"); mode := Str (js "go") |}.
Proof.
  intros o this.
  assert (Hq : querySelector (js "textarea") (Host.block (js "x=1"))
               = Some (Element (js "textarea") (js "x=1") []))
    by reflexivity.
  split; [exact Hq |].
  exact (proj2 (proj2 (save_contract this [] _ _ _ _ Hq))).
Defined.

(** A pasted [<pre>] with markup inside: only the text is kept. *)
Example paste_keeps_text_only :
  let pre := Element (js "pre") []
               [Text (js "a "); Element (js "b") [] [Text (js "b")];
                Text (js " c")] in
  textContent pre = js "a b c".
Proof. reflexivity. Qed.

End Scenarios.

(* ================================================================== *)
(** * More on the key handler *)

Section KeyHandling.
Import JS DOM CodeTool Spec Usage.

Variable lineStart : JSString -> Z -> Z.

(** X1 -- The key listener handles the Tab key and nothing else: a Tab
    event leaves the listener with its propagation stopped and its default
    action prevented in every branch of the handler, the early return of
    Shift+Tab included; any other key event is left exactly as it came. *)
Theorem keydown_listener_tab_only (event : KeyboardEvent) :
  (key_code event = js "Tab" ->
   propagationStopped (keydown_listener lineStart event) = true
   /\ defaultPrevented (keydown_listener lineStart event) = true
   /\ key_code (keydown_listener lineStart event) = key_code event
   /\ shiftKey (keydown_listener lineStart event) = shiftKey event)
  /\ (key_code event <> js "Tab" ->
      keydown_listener lineStart event = event).
Proof.
  unfold keydown_listener. split; intros Hkey.
  - rewrite (proj2 (str_eqb_eq _ _) Hkey).
    destruct (tabHandler_silences lineStart event) as [Hstop Hprevent].
    split; [exact Hstop |]. split; [exact Hprevent |].
    unfold tabHandler. simpl.
    destruct (shiftKey event) eqn:Hshift; simpl.
    + destruct (negb (str_eqb _ _)); simpl; rewrite ?Hshift; split; reflexivity.
    + rewrite ?Hshift. split; reflexivity.
  - rewrite (proj2 (str_eqb_neq _ _) Hkey). reflexivity.
Qed.

Lemma firstn_split_at (T : JSString) (s n : nat) :
  (s <= n)%nat -> firstn n T = firstn s T ++ slice T s n.
Proof.
  intros Hsn. unfold slice.
  rewrite <- (firstn_skipn s (firstn n T)) at 1.
  rewrite firstn_firstn, Nat.min_l by exact Hsn.
  rewrite skipn_firstn_comm. reflexivity.
Qed.

(** X2 -- Tab, then Shift+Tab at the caret it left, is an undo whenever the
    caret stood in the leading spaces of its line: if the line start
    reported after the Tab is at or before the original caret and only
    spaces lie between the two, the text and the caret come back. *)
Theorem indent_then_outdent_restores (T : JSString) (c : Z) :
  let t1 := target (tabHandler lineStart (tab_press false T c)) in
  let s := lineStart (value t1) (selectionStart t1) in
  0 <= c <= length T ->
  0 <= s <= c ->
  Forall (fun u => u = SPACE) (slice T (Z.to_nat s) (Z.to_nat c)) ->
  indent_then_outdent lineStart T c
  = {| value := T; selectionStart := c; selectionEnd := c |}.
Proof.
  intros t1 s Hc Hs Hspaces. unfold indent_then_outdent. fold t1.
  assert (Ht1 : t1 = {| value := firstn (Z.to_nat c) T ++ U
                                  ++ skipn (Z.to_nat c) T;
                        selectionStart := c + 2;
                        selectionEnd := c + 2 |})
    by (unfold t1;
        apply (tabHandler_indent lineStart (tab_press false T c) eq_refl Hc)).
  assert (Hnonneg : 0 <= lineStart (value t1) (selectionStart t1))
    by (fold s; lia).
  rewrite (tabHandler_outdent lineStart
             (tab_press true (value t1) (selectionStart t1)) eq_refl Hnonneg).
  cbn [tab_press target value selectionStart]. fold s.
  set (n := Z.to_nat c) in *. set (m := Z.to_nat s) in *.
  unfold length in Hc.
  assert (Hmn : (m <= n)%nat) by (unfold m, n; lia).
  assert (Hn : (n <= List.length T)%nat) by (unfold n; lia).
  set (A1 := firstn m T). set (X := slice T m n) in *.
  set (B := skipn n T).
  assert (HA1 : List.length A1 = m)
    by (unfold A1; rewrite length_firstn; lia).
  assert (HT : T = A1 ++ X ++ B).
  { unfold A1, X, B. rewrite app_assoc, <- firstn_split_at by exact Hmn.
    symmetry. apply firstn_skipn. }
  assert (Hvalue : value t1 = A1 ++ U ++ X ++ B).
  { rewrite Ht1. cbn [value]. fold n. fold B.
    rewrite (firstn_split_at T m n Hmn). fold A1. fold X.
    rewrite <- app_assoc. f_equal.
    rewrite !app_assoc. f_equal.
    apply unit_commutes. exact Hspaces. }
  assert (Hskip : skipn m (value t1) = U ++ X ++ B).
  { rewrite Hvalue, skipn_app, HA1, Nat.sub_diag.
    rewrite skipn_all2 by lia. reflexivity. }
  assert (Hunit : slice (value t1) m (m + 2) = U).
  { unfold slice. replace (m + 2 - m)%nat with 2%nat by lia.
    rewrite Hskip. reflexivity. }
  rewrite (proj2 (str_eqb_eq _ _) Hunit).
  replace (m + 2)%nat with (2 + m)%nat by lia.
  rewrite <- skipn_skipn, Hskip. cbn [U app skipn].
  rewrite Hvalue, firstn_app, HA1, Nat.sub_diag, firstn_O, app_nil_r.
  rewrite firstn_all2 by lia.
  rewrite <- HT. rewrite Ht1. cbn [selectionStart].
  rewrite text_offset_inside by (unfold length; lia).
  f_equal; lia.
Qed.

(** X3 -- n presses of Tab in a row put 2n spaces at the original caret and
    move the caret 2n further: every press lands where the one before left
    the caret, so the run of units stays in one piece. *)
Theorem repeated_tab (n : nat) :
  forall (T : JSString) (c e : Z),
    0 <= c <= length T ->
    let t := press_tab lineStart n
               {| value := T; selectionStart := c; selectionEnd := e |} in
    value t = slice T 0 (Z.to_nat c) ++ repeat SPACE (2 * n)
                ++ from T (Z.to_nat c)
    /\ selectionStart t = c + 2 * Z.of_nat n.
Proof.
  unfold slice, from.
  induction n as [| n IH]; intros T c e Hc;
    cbn [press_tab value selectionStart].
  - rewrite Nat.sub_0_r. cbn [skipn repeat Nat.mul app selectionStart value].
    rewrite firstn_skipn. split; [reflexivity | lia].
  - rewrite (tabHandler_indent lineStart (tab_press false T c) eq_refl Hc).
    cbn [tab_press target value selectionStart].
    set (k := Z.to_nat c). unfold length in Hc.
    assert (Hk : (k <= List.length T)%nat) by (unfold k; lia).
    assert (HA : List.length (firstn k T) = k)
      by (rewrite length_firstn; lia).
    set (T1 := firstn k T ++ U ++ skipn k T).
    assert (HT1 : List.length T1 = (List.length T + 2)%nat).
    { unfold T1. rewrite length_app, HA. cbn [U app List.length].
      rewrite length_skipn. lia. }
    assert (Hc1 : 0 <= c + 2 <= length T1) by (unfold length; lia).
    destruct (IH T1 (c + 2) (c + 2) Hc1) as [Hv Hs].
    rewrite Hv, Hs. split; [| lia].
    rewrite !Nat.sub_0_r. cbn [skipn].
    replace (Z.to_nat (c + 2)) with (k + 2)%nat by (unfold k; lia).
    assert (Hfirst : firstn (k + 2) T1 = firstn k T ++ U).
    { unfold T1. rewrite app_assoc.
      rewrite firstn_app.
      replace (k + 2 - List.length (firstn k T ++ U))%nat with 0%nat
        by (rewrite length_app, HA; cbn; lia).
      rewrite firstn_O, app_nil_r.
      apply firstn_all2. rewrite length_app, HA. cbn. lia. }
    assert (Hlast : skipn (k + 2) T1 = skipn k T).
    { unfold T1. rewrite app_assoc, skipn_app.
      rewrite skipn_all2 by (rewrite length_app, HA; cbn; lia).
      replace (k + 2 - List.length (firstn k T ++ U))%nat with 0%nat
        by (rewrite length_app, HA; cbn; lia).
      reflexivity. }
    rewrite Hfirst, Hlast.
    replace (2 * S n)%nat with (2 + 2 * n)%nat by lia.
    rewrite repeat_app, <- !app_assoc. reflexivity.
Qed.

(** X4 -- Shift+Tab never adds text: the text keeps its length or loses
    exactly two code units, and a text of fewer than two code units (the
    empty text included) is always left as it is, caret included. *)
Theorem outdent_never_lengthens (event : KeyboardEvent) :
  let T := value (target event) in
  let c := selectionStart (target event) in
  let t' := target (tabHandler lineStart event) in
  shiftKey event = true ->
  0 <= lineStart T c ->
  (length T < 2 -> t' = target event)
  /\ (length (value t') = length T \/ length (value t') = length T - 2).
Proof.
  intros T c t' Hshift Hs. unfold t'.
  rewrite (tabHandler_outdent lineStart event Hshift Hs). fold T c.
  set (s := Z.to_nat (lineStart T c)).
  destruct (str_eqb (slice T s (s + 2)) U) eqn:Hunit.
  - apply str_eqb_eq in Hunit.
    destruct (split_at_unit T s Hunit) as (HT & HA & Hlen).
    unfold length. split; [intros Hshort; lia |].
    right. cbn [value]. rewrite length_app, HA, length_skipn. lia.
  - split; [intros _; reflexivity | left; reflexivity].
Qed.

(** X5 -- The handler works from the start of the selection alone: its new
    text and new caret do not depend on where the selection ends, so a
    selected range is never replaced; and whenever it changes anything it
    leaves a collapsed selection. *)
Theorem selection_end_ignored (event : KeyboardEvent) (e : Z) :
  let t' := target (tabHandler lineStart event) in
  let t'' := target (tabHandler lineStart (with_selectionEnd e event)) in
  value t'' = value t'
  /\ selectionStart t'' = selectionStart t'
  /\ (t' = target event \/ selectionEnd t' = selectionStart t').
Proof.
  unfold tabHandler, with_selectionEnd.
  cbn [stopPropagation preventDefault with_target shiftKey target value
       selectionStart].
  destruct (shiftKey event); cbn [negb].
  - destruct (negb (str_eqb _ _)); cbn [with_target target];
      rewrite ?setSelectionRange_collapsed;
      cbn [set_value value selectionStart selectionEnd];
      (split; [reflexivity | split; [reflexivity |]]);
      [left | right]; reflexivity.
  - cbn [with_target target]. rewrite !setSelectionRange_collapsed.
    cbn [set_value value selectionStart selectionEnd].
    split; [reflexivity | split; [reflexivity | right; reflexivity]].
Qed.

(** X6 -- When Shift+Tab removes the unit and the caret stood at or after
    the end of that unit, the caret it asks for stays on the same line and
    inside the new text: s <= c - 2 <= len(T'). *)
Theorem outdent_caret_stays_on_line (event : KeyboardEvent) :
  let T := value (target event) in
  let c := selectionStart (target event) in
  let s := lineStart T c in
  let t' := target (tabHandler lineStart event) in
  shiftKey event = true ->
  0 <= s ->
  s + 2 <= c <= length T ->
  slice T (Z.to_nat s) (Z.to_nat s + 2) = U ->
  s <= selectionStart t' <= length (value t')
  /\ length (value t') = length T - 2.
Proof.
  intros T c s t' Hshift Hs Hc Hunit. unfold t'.
  rewrite (tabHandler_outdent lineStart event Hshift Hs). fold T c s.
  rewrite (proj2 (str_eqb_eq _ _) Hunit). cbn [value selectionStart].
  destruct (split_at_unit T _ Hunit) as (_ & HA & Hlen).
  assert (Hlen' : length (firstn (Z.to_nat s) T ++ skipn (Z.to_nat s + 2) T)
                  = length T - 2)
    by (unfold length; rewrite length_app, HA, length_skipn; lia).
  rewrite Hlen'. unfold length in *.
  rewrite text_offset_inside by lia. lia.
Qed.

End KeyHandling.

(* ================================================================== *)
(** * More on the constructor *)

Section Resolution.
Import JS DOM CodeTool Spec Usage.

Lemma own_app (ps hs : list (JSString * Value)) (k : JSString) :
  own (ps ++ hs) k
  = match own ps k with
    | Some v => Some v
    | None => own hs k
    end.
Proof.
  induction ps as [| [k' v] ps IH]; simpl; [reflexivity |].
  destruct (str_eqb k' k); [reflexivity | exact IH].
Qed.

(** An own enumerable property is what the lookup returns. *)
Lemma Get_own (o : Object) (k : JSString) (v : Value) :
  own (properties o) k = Some v -> Get o k = v.
Proof.
  destruct o as [ps hs proto]. simpl. intros Hown.
  rewrite own_app, Hown. reflexivity.
Qed.

Lemma In_insert_by_index (x k : JSString) (l : list JSString) :
  In x (insert_by_index k l) <-> x = k \/ In x l.
Proof.
  induction l as [| k' l IH]; simpl.
  - intuition.
  - destruct (numeral_value k <=? numeral_value k')%N; simpl.
    + intuition.
    + rewrite IH. intuition.
Qed.

Lemma In_sort_by_index (x : JSString) (l : list JSString) :
  In x (sort_by_index l) <-> In x l.
Proof.
  unfold sort_by_index.
  induction l as [| k l IH]; simpl; [reflexivity |].
  rewrite In_insert_by_index, IH. intuition.
Qed.

(** [Object.keys] lists the own keys, all of them and nothing else. *)
Lemma In_ordered_keys (x : JSString) (ps : list (JSString * Value)) :
  In x (ordered_keys ps) <-> In x (map fst ps).
Proof.
  unfold ordered_keys. rewrite in_app_iff, In_sort_by_index, !filter_In.
  destruct (is_array_index x); simpl; intuition congruence.
Qed.

(** X7 -- The constructor writes at most one line to the console, the
    missing-default-mode warning, and it writes it exactly when
    [config.defaultMode] is a string whose lookup in the registry is falsy;
    the key it resolves is then "text". *)
Theorem console_at_most_one_warning (o : Options) :
  (warnings o = [] \/ warnings o = [WARNING])
  /\ (warnings o = [WARNING] <->
      exists k, config_defaultMode (options_config o) = Str k
                /\ ToBoolean (Get (effective_registry o) k) = false)
  /\ (warnings o = [WARNING] -> initialSelectedKey o = Str (js "text")).
Proof.
  destruct (constructor_result o) as (Hreg & _ & Hwarn & _).
  rewrite Hwarn, Hreg. unfold initialSelectedKey, select_mode.
  destruct (config_defaultMode (options_config o)) as [| k | name].
  - split; [left; reflexivity |].
    split; [split; [discriminate | intros (k & Hk & _); discriminate Hk] |].
    discriminate.
  - destruct (ToBoolean (Get (effective_modes (options_config o)) k)) eqn:Hget;
      simpl.
    + split; [left; reflexivity |].
      split; [split; [discriminate |] | discriminate].
      intros (k' & Hk' & Hfalse). injection Hk' as <-. congruence.
    + split; [right; reflexivity |].
      split; [split; [| reflexivity] | reflexivity].
      intros _. exists k. split; [reflexivity | exact Hget].
  - split; [left; reflexivity |].
    split; [split; [discriminate | intros (k & Hk & _); discriminate Hk] |].
    discriminate.
Qed.

(** X8 -- A default mode that is a key of the registry is selected without
    a warning when its label is a non-empty string; when its label is the
    empty string it is treated as missing: the warning is written and "text"
    is selected. *)
Theorem registered_default_mode (o : Options) (k label : JSString) :
  config_defaultMode (options_config o) = Str k ->
  own (properties (effective_registry o)) k = Some (Str label) ->
  (label <> [] -> initialSelectedKey o = Str k /\ warnings o = [])
  /\ (label = [] ->
      initialSelectedKey o = Str (js "text") /\ warnings o = [WARNING]).
Proof.
  intros Hk Hown.
  destruct (constructor_result o) as (Hreg & _ & Hwarn & _).
  rewrite Hwarn. unfold initialSelectedKey.
  rewrite Hreg in Hown.
  rewrite (select_mode_string _ _ k Hk), (Get_own _ _ _ Hown).
  split; intros Hlabel.
  - destruct label; [contradiction | split; reflexivity].
  - subst label. split; reflexivity.
Qed.

(** X9 -- Without a default mode, the key the constructor resolves is a key
    of the registry whenever the registry has one, and [undefined] only for
    a registry without keys; it is never the fallback "text" of the warning
    branch unless "text" is such a key. *)
Theorem first_key_is_registered (o : Options) :
  typeof_is_string (config_defaultMode (options_config o)) = false ->
  (registration_order (effective_registry o) <> [] ->
   exists k, initialSelectedKey o = Str k /\ is_key (effective_registry o) k)
  /\ (registration_order (effective_registry o) = [] ->
      initialSelectedKey o = Undefined).
Proof.
  intros Hnot.
  destruct (constructor_result o) as (Hreg & _).
  rewrite Hreg. unfold initialSelectedKey, is_key, registration_order.
  set (ps := properties (effective_modes (options_config o))).
  assert (Hsel : fst (select_mode (effective_modes (options_config o))
                        (options_config o))
                 = index0 (ordered_keys ps)).
  { unfold select_mode.
    destruct (config_defaultMode (options_config o));
      try discriminate Hnot; reflexivity. }
  rewrite Hsel. split.
  - intros Hne. destruct (ordered_keys ps) as [| k ks] eqn:Hkeys.
    + destruct (map fst ps) as [| k ks] eqn:Hmap; [contradiction |].
      assert (Hin : In k (ordered_keys ps))
        by (apply In_ordered_keys; rewrite Hmap; left; reflexivity).
      rewrite Hkeys in Hin. destruct Hin.
    + exists k. split; [reflexivity |].
      apply In_ordered_keys. rewrite Hkeys. left. reflexivity.
  - intros Hempty. destruct (ordered_keys ps) as [| k ks] eqn:Hkeys;
      [reflexivity |].
    assert (Hin : In k (map fst ps))
      by (apply In_ordered_keys; rewrite Hkeys; left; reflexivity).
    rewrite Hempty in Hin. destruct Hin.
Qed.

(** X10 -- Defaults for what the host leaves out: a prior code that is a
    string is stored as it is and an absent one as the empty string, never
    as [undefined]; an absent or empty placeholder becomes the translation
    of "Enter a code", any other one the translation of itself. *)
Theorem constructor_defaults (o : Options) :
  let prior := code (options_data o) in
  let wanted := config_placeholder (options_config o) in
  let this := fst (constructor o) in
  (forall s, prior = Str s -> code (get_data this) = Str s)
  /\ (prior = Undefined -> code (get_data this) = Str [])
  /\ (wanted = Undefined \/ wanted = Str [] ->
      placeholder this = i18n_t (options_api o) (Str (js "Enter a code")))
  /\ (forall s, wanted = Str s -> s <> [] ->
      placeholder this = i18n_t (options_api o) (Str s)).
Proof.
  intros prior wanted this.
  destruct (constructor_result o) as (_ & Hdata & _).
  unfold initial_data in Hdata. fold this in Hdata. rewrite Hdata.
  assert (Hplace : placeholder this
                   = i18n_t (options_api o)
                       (logical_or wanted (Str DEFAULT_PLACEHOLDER))).
  { unfold this, constructor. cbv zeta.
    destruct (select_mode _ _). reflexivity. }
  rewrite Hplace. cbn [code]. fold prior. unfold logical_or.
  split; [| split; [| split]].
  - intros s Hs. rewrite Hs. destruct s; reflexivity.
  - intros Hs. rewrite Hs. reflexivity.
  - intros [Hw | Hw]; rewrite Hw; reflexivity.
  - intros s Hw Hne. rewrite Hw. destruct s; [contradiction | reflexivity].
Qed.

(** X12 -- For a registry written as an object literal, the selector offers
    one option per key of the registry, in own-key order, with the key as
    value and its label as text; every option is a key of the registry, so
    no name inherited from [Object.prototype] is ever offered. *)
Theorem selector_options_follow_registry (o : Options)
  (ps : list (JSString * Value)) :
  effective_registry o = literal ps ->
  exists sel,
    nodes_selector (nodes (fst (constructor o))) = Some sel
    /\ select_children sel
       = map (fun k => {| option_value := k;
                          option_textContent := Get (literal ps) k |})
             (keys (literal ps))
    /\ (forall opt, In opt (select_children sel) ->
                    is_key (literal ps) (option_value opt)).
Proof.
  intros Hlit.
  destruct (constructor_result o) as (Hreg & _).
  rewrite Hreg in Hlit.
  assert (Hsel : option_map select_children
                   (nodes_selector (nodes (fst (constructor o))))
                 = Some (map (fun k =>
                                {| option_value := k;
                                   option_textContent :=
                                     Get (effective_modes (options_config o)) k |})
                             (for_in (effective_modes (options_config o))))).
  { unfold constructor. cbv zeta.
    destruct (select_mode _ _) as [selectedMode console]. reflexivity. }
  rewrite Hlit in Hsel.
  assert (Hfor : for_in (literal ps) = keys (literal ps))
    by (unfold literal, keys; cbn; apply app_nil_r).
  rewrite Hfor in Hsel.
  destruct (nodes_selector (nodes (fst (constructor o)))) as [sel |];
    [| discriminate Hsel].
  injection Hsel as Hchildren.
  exists sel. split; [reflexivity |]. split; [exact Hchildren |].
  intros opt Hin. rewrite Hchildren in Hin.
  apply in_map_iff in Hin as (k & <- & Hk). cbn [option_value].
  unfold is_key, registration_order. apply In_ordered_keys. exact Hk.
Qed.

End Resolution.

(* ================================================================== *)
(** * The block over its lifetime *)

Section Lifetime.
Import JS DOM CodeTool Spec Usage.

Lemma run_cons (this : Instance) (e : Event) (es : list Event) :
  run this (e :: es) = run (dispatch this e) es.
Proof. reflexivity. Qed.

(** What one event leaves alone. *)
Lemma dispatch_frame (this : Instance) (e : Event) :
  let this' := dispatch this e in
  (api this', readOnly this', placeholder this', modes this', CSS this')
  = (api this, readOnly this, placeholder this, modes this, CSS this)
  /\ nodes_holder (nodes this') = nodes_holder (nodes this)
  /\ nodes_selector (nodes this') = nodes_selector (nodes this)
  /\ option_map (fun t => (textarea_classList t, textarea_placeholder t,
                           textarea_disabled t))
       (nodes_textarea (nodes this'))
     = option_map (fun t => (textarea_classList t, textarea_placeholder t,
                             textarea_disabled t))
         (nodes_textarea (nodes this)).
Proof.
  destruct e as [c | k | p | text]; simpl.
  - repeat split.
  - repeat split.
    destruct (nodes_textarea (nodes this)) as [t |]; simpl; [| reflexivity].
    unfold keydown_on. destruct (str_eqb _ _); reflexivity.
  - unfold onPaste, set_data. simpl.
    destruct (nodes_textarea (nodes this)) as [t |] eqn:Ht; simpl;
      rewrite ?Ht; repeat split.
  - repeat split.
    destruct (nodes_textarea (nodes this)) as [t |]; reflexivity.
Qed.

(** X13 -- Nothing the user or the host does to a block changes its
    registry, its placeholder, its read-only flag, its class names, its
    wrapper or its selector node, and the textarea node keeps its classes,
    placeholder and disabled flag: changes of the selector, key presses,
    pastes and edits only reach the stored record and the text of the
    textarea, its text content and the value it displays. *)
Theorem run_frame (es : list Event) :
  forall this : Instance,
    let this' := run this es in
    (api this', readOnly this', placeholder this', modes this', CSS this')
    = (api this, readOnly this, placeholder this, modes this, CSS this)
    /\ nodes_holder (nodes this') = nodes_holder (nodes this)
    /\ nodes_selector (nodes this') = nodes_selector (nodes this)
    /\ option_map (fun t => (textarea_classList t, textarea_placeholder t,
                             textarea_disabled t))
         (nodes_textarea (nodes this'))
       = option_map (fun t => (textarea_classList t, textarea_placeholder t,
                               textarea_disabled t))
           (nodes_textarea (nodes this)).
Proof.
  induction es as [| e es IH]; intros this.
  - repeat split.
  - cbv zeta. rewrite run_cons.
    destruct (IH (dispatch this e)) as (H1 & H2 & H3 & H4).
    destruct (dispatch_frame this e) as (D1 & D2 & D3 & D4).
    rewrite H1, H2, H3, H4. repeat split; assumption.
Qed.

Lemma run_code (es : list Event) :
  forall this : Instance,
    code (get_data (run this es)) = last_pasted es (code (get_data this)).
Proof.
  induction es as [| e es IH]; intros this; [reflexivity |].
  rewrite run_cons, IH. destruct e as [c | k | p | text]; simpl.
  - reflexivity.
  - reflexivity.
  - unfold onPaste. rewrite get_data_set_data. reflexivity.
  - reflexivity.
Qed.

Lemma run_in_sync (es : list Event) :
  forall this : Instance,
    option_map textarea_textContent (nodes_textarea (nodes this))
    = Some (code (get_data this)) ->
    option_map textarea_textContent (nodes_textarea (nodes (run this es)))
    = Some (code (get_data (run this es))).
Proof.
  induction es as [| e es IH]; intros this Hsync; [exact Hsync |].
  rewrite run_cons. apply IH.
  destruct e as [c | k | p | text]; simpl.
  - exact Hsync.
  - destruct (nodes_textarea (nodes this)) as [t |]; [| discriminate Hsync].
    simpl in *. unfold keydown_on.
    destruct (str_eqb _ _); exact Hsync.
  - unfold onPaste, set_data. simpl.
    destruct (nodes_textarea (nodes this)) as [t |] eqn:Ht;
      [| discriminate Hsync].
    simpl. reflexivity.
  - destruct (nodes_textarea (nodes this)) as [t |]; [| discriminate Hsync].
    exact Hsync.
Qed.

(** The constructor leaves the textarea showing the stored code. *)
Lemma constructor_in_sync (o : Options) :
  option_map textarea_textContent
    (nodes_textarea (nodes (fst (constructor o))))
  = Some (code (get_data (fst (constructor o)))).
Proof.
  unfold constructor. cbv zeta.
  destruct (select_mode _ _) as [selectedMode console]. reflexivity.
Qed.

(** X14 -- In every state a constructed block can reach, the stored code is
    the text of the last paste, or the code the block was built with when
    nothing was pasted, and the text of the textarea node is that stored
    code: changes of the selector and key presses never touch either. *)
Theorem stored_code_follows_paste (o : Options) (es : list Event) :
  let this := run (fst (constructor o)) es in
  code (get_data this) = last_pasted es (code (initial_data o))
  /\ option_map textarea_textContent (nodes_textarea (nodes this))
     = Some (code (get_data this)).
Proof.
  split.
  - apply run_code.
  - apply run_in_sync. apply constructor_in_sync.
Qed.


Lemma constructor_pristine (o : Options) :
  pristine_in_sync (fst (constructor o)).
Proof.
  unfold pristine_in_sync, constructor. cbv zeta.
  destruct (select_mode _ _) as [selectedMode console]. cbn.
  eexists. split; reflexivity.
Qed.

Lemma dispatch_pristine (this : Instance) (e : Event) :
  pristine_in_sync this -> pristine_in_sync (dispatch this e).
Proof.
  intros (t & Ht & Hsync). unfold pristine_in_sync.
  destruct e as [c | k | p | text]; simpl; rewrite ?Ht; simpl.
  - exists t. split; [reflexivity | exact Hsync].
  - eexists. split; [reflexivity |].
    unfold keydown_on. destruct (str_eqb _ _); [exact Hsync |].
    discriminate.
  - unfold onPaste, set_data. simpl. rewrite Ht. simpl.
    eexists. split; [reflexivity |]. simpl.
    intros Hclean. rewrite Hclean. reflexivity.
  - eexists. split; [reflexivity |]. discriminate.
Qed.

(** X17 -- As long as the textarea of a constructed block has not been
    edited, by the user or by the Tab handler, it displays the stored code
    (in the reading of the textarea, where a carriage return is a line
    feed): the code the block was built with, then the text of the last
    paste. *)
Theorem pristine_textarea_shows_stored_code (o : Options) (es : list Event) :
  let this := run (fst (constructor o)) es in
  exists t,
    nodes_textarea (nodes this) = Some t
    /\ (textarea_dirty t = false ->
        textarea_value t
        = normalize_newlines (toDOMString (code (get_data this)))).
Proof.
  cbv zeta.
  assert (H : pristine_in_sync (run (fst (constructor o)) es)).
  { generalize (constructor_pristine o).
    generalize (fst (constructor o)) as this.
    induction es as [| e es IH]; intros this Hsync; [exact Hsync |].
    rewrite run_cons. apply IH. apply dispatch_pristine. exact Hsync. }
  destruct H as (t & Ht & Hsync).
  exists t. split; [exact Ht |].
  intros Hclean. unfold textarea_value. rewrite (Hsync Hclean). reflexivity.
Qed.

End Lifetime.

(* ================================================================== *)
(** * Further worked inputs *)

Section MoreScenarios.
Import JS DOM CodeTool Spec Usage.

Local Notation lineStart := Utils.getLineStartPosition.

(** On the second line of "a", line feed, "  b", with the caret after its
    two leading spaces: Tab and then Shift+Tab give the text back. *)
Lemma indent_then_outdent_restores_witness :
  let T := js "a" ++ [LF] ++ js "  b" in
  let c := 4 in
  let t1 := target (tabHandler lineStart (tab_press false T c)) in
  let s := lineStart (value t1) (selectionStart t1) in
  0 <= c <= length T
  /\ 0 <= s <= c
  /\ Forall (fun u => u = SPACE) (slice T (Z.to_nat s) (Z.to_nat c))
  /\ indent_then_outdent lineStart T c
     = {| value := T; selectionStart := 4; selectionEnd := 4 |}.
Proof.
  intros T c t1 s.
  assert (Hc : 0 <= c <= length T) by (vm_compute; split; discriminate).
  assert (Hs : 0 <= s <= c) by (vm_compute; split; discriminate).
  assert (Hsp : Forall (fun u => u = SPACE) (slice T (Z.to_nat s) (Z.to_nat c)))
    by (repeat constructor).
  split; [exact Hc |]. split; [exact Hs |]. split; [exact Hsp |].
  exact (indent_then_outdent_restores lineStart T c Hc Hs Hsp).
Defined.

(** Three Tabs inside "foo", after the "f". *)
Lemma repeated_tab_witness :
  0 <= 1 <= length (js "foo")
  /\ value (press_tab lineStart 3
              {| value := js "foo"; selectionStart := 1; selectionEnd := 1 |})
     = js "f      oo"
  /\ selectionStart
       (press_tab lineStart 3
          {| value := js "foo"; selectionStart := 1; selectionEnd := 1 |})
     = 7.
Proof.
  assert (Hc : 0 <= 1 <= length (js "foo")) by (vm_compute; split; discriminate).
  split; [exact Hc |].
  exact (repeated_tab lineStart 3 (js "foo") 1 1 Hc).
Defined.

(** Shift+Tab on the empty text. *)
Lemma outdent_never_lengthens_witness :
  let event := tab_press true [] 0 in
  shiftKey event = true
  /\ 0 <= lineStart (value (target event)) (selectionStart (target event))
  /\ target (tabHandler lineStart event) = target event.
Proof.
  intros event.
  assert (Hshift : shiftKey event = true) by reflexivity.
  assert (Hs : 0 <= lineStart (value (target event))
                      (selectionStart (target event)))
    by (vm_compute; discriminate).
  split; [exact Hshift |]. split; [exact Hs |].
  apply (proj1 (outdent_never_lengthens lineStart event Hshift Hs)).
  vm_compute. reflexivity.
Defined.

(** Shift+Tab on "  foo" with the caret right after the unit. *)
Lemma outdent_caret_stays_on_line_witness :
  let event := tab_press true (js "  foo") 2 in
  let T := value (target event) in
  let c := selectionStart (target event) in
  let t' := target (tabHandler lineStart event) in
  shiftKey event = true
  /\ 0 <= lineStart T c
  /\ lineStart T c + 2 <= c <= length T
  /\ slice T (Z.to_nat (lineStart T c)) (Z.to_nat (lineStart T c) + 2) = U
  /\ lineStart T c <= selectionStart t' <= length (value t')
  /\ length (value t') = length T - 2.
Proof.
  intros event T c t'.
  assert (Hshift : shiftKey event = true) by reflexivity.
  assert (Hs : 0 <= lineStart T c) by (vm_compute; discriminate).
  assert (Hc : lineStart T c + 2 <= c <= length T)
    by (vm_compute; split; discriminate).
  assert (HU : slice T (Z.to_nat (lineStart T c))
                 (Z.to_nat (lineStart T c) + 2) = U) by reflexivity.
  split; [exact Hshift |]. split; [exact Hs |]. split; [exact Hc |].
  split; [exact HU |].
  exact (outdent_caret_stays_on_line lineStart event Hshift Hs Hc HU).
Defined.

(** The default mode "go" with the label "Go", and with an empty label. *)
Lemma registered_default_mode_witness :
  let o := Host.options Host.no_data
             (Host.config_with Host.js_go (Str (js "go"))) in
  let unlabelled := literal [(js "js", Str (js "JavaScript"));
                             (js "go", Str [])] in
  let o' := Host.options Host.no_data
              (Host.config_with unlabelled (Str (js "go"))) in
  config_defaultMode (options_config o) = Str (js "go")
  /\ own (properties (effective_registry o)) (js "go") = Some (Str (js "Go"))
  /\ own (properties (effective_registry o')) (js "go") = Some (Str [])
  /\ (initialSelectedKey o = Str (js "go") /\ warnings o = [])
  /\ (initialSelectedKey o' = Str (js "text") /\ warnings o' = [WARNING]).
Proof.
  intros o unlabelled o'.
  assert (Hk : config_defaultMode (options_config o) = Str (js "go"))
    by reflexivity.
  assert (Hk' : config_defaultMode (options_config o') = Str (js "go"))
    by reflexivity.
  assert (Hown : own (properties (effective_registry o)) (js "go")
                 = Some (Str (js "Go"))) by reflexivity.
  assert (Hown' : own (properties (effective_registry o')) (js "go")
                  = Some (Str [])) by reflexivity.
  split; [exact Hk |]. split; [exact Hown |]. split; [exact Hown' |].
  split.
  - apply (proj1 (registered_default_mode o (js "go") (js "Go") Hk Hown)).
    discriminate.
  - apply (proj2 (registered_default_mode o' (js "go") [] Hk' Hown')).
    reflexivity.
Defined.

Lemma first_key_is_registered_witness :
  let o := Host.options Host.no_data (Host.config_with Host.js_go Undefined) in
  typeof_is_string (config_defaultMode (options_config o)) = false
  /\ registration_order (effective_registry o) <> []
  /\ exists k, initialSelectedKey o = Str k /\ is_key (effective_registry o) k.
Proof.
  intros o.
  assert (H : typeof_is_string (config_defaultMode (options_config o)) = false)
    by reflexivity.
  assert (Hne : registration_order (effective_registry o) <> [])
    by discriminate.
  split; [exact H |]. split; [exact Hne |].
  exact (proj1 (first_key_is_registered o H) Hne).
Defined.

Lemma selector_options_follow_registry_witness :
  let ps := [(js "js", Str (js "JavaScript")); (js "go", Str (js "Go"))] in
  let o := Host.options Host.no_data
             (Host.config_with (literal ps) (Str (js "go"))) in
  effective_registry o = literal ps
  /\ exists sel,
       nodes_selector (nodes (fst (constructor o))) = Some sel
       /\ select_children sel
          = [ {| option_value := js "js";
                 option_textContent := Str (js "JavaScript") |};
              {| option_value := js "go";
                 option_textContent := Str (js "Go") |} ].
Proof.
  intros ps o.
  assert (Hlit : effective_registry o = literal ps) by reflexivity.
  split; [exact Hlit |].
  destruct (selector_options_follow_registry o ps Hlit)
    as (sel & Hsel & Hchildren & _).
  exists sel. split; [exact Hsel | exact Hchildren].
Defined.

End MoreScenarios.
